(** * life-of-game: the WebGPU host program, embedded and checked

    The repository is a TypeScript host program for a Game of Life demo.
    [src/main.ts] is the full variant (compute pass + render pass, driven by
    a timer); a second, earlier variant only renders a 32x32 grid once.

    The embedding follows the source line by line:
    - a JS [number] holding an integer is a [Z], the result of [/] is a
      [Q], and [%] is [Z.rem].  Binary64 rounding is outside this model:
      the program's constants and quotients are exact in binary64, and so
      is the step counter below 2^53, where the timer's five increments a
      second keep it;
    - typed arrays are lists; [Uint32Array] stores modulo 2^32;
    - WebGPU objects are records carrying the handle the device gave them;
      object identity is handle identity;
    - the device is explicit state: the next free handle and the log of
      queue operations ([writeBuffer], [submit]);
    - an uncaught exception ends the module evaluation with [Throw e]:
      [throw new Error(m)], the [TypeError] of a member access on [null],
      or the reason of a rejected promise that is awaited;
    - [Math.random()] is a stream: the i-th call returns [random i];
    - the two WGSL shader files are not part of the host program and are
      taken as parameters. *)

From Stdlib Require Import ZArith Zquot QArith Qround Lia String.
From stdpp Require Import base list.

Local Open Scope Z_scope.

(** ** JavaScript values *)

Module JS.

(** [a / b] on numbers. *)
Definition div (a b : Q) : Q := Qred (a / b).

(** [Math.ceil]. *)
Definition Math_ceil (x : Q) : Z := Qceiling x.

(** [a > b] on numbers. *)
Definition gt (a b : Q) : bool := negb (Qle_bool a b).

(** [a[k]] for a number [k]: [undefined] outside the array. *)
Definition index {A} (a : list A) (k : Z) : option A :=
  if k <? 0 then None else a !! Z.to_nat k.

(** Typed arrays. *)
Inductive TypedArray :=
| Float32Array (elems : list Q)
| Uint32Array (elems : list Z).

Definition length (a : TypedArray) : Z :=
  match a with
  | Float32Array xs => Z.of_nat (List.length xs)
  | Uint32Array xs => Z.of_nat (List.length xs)
  end.

(** Both element types are four bytes wide. *)
Definition byteLength (a : TypedArray) : Z := 4 * length a.

(** [new Uint32Array(n)]: [n] zeros. *)
Definition new_Uint32Array (n : Z) : list Z := replicate (Z.to_nat n) 0.

(** Storing into a [Uint32Array] converts with ToUint32. *)
Definition ToUint32 (v : Z) : Z := v mod 2 ^ 32.

(** [throw new Error(message)] aborts the module evaluation. *)
Inductive Exception :=
| Error (message : string)      (* throw new Error(message) *)
| TypeError                     (* x.m(...) where x is null *)
| Rejection (reason : string).  (* await of a promise that rejects *)

Inductive Result (A : Type) :=
| Ok (a : A)
| Throw (e : Exception).
Arguments Ok {A} a.
Arguments Throw {A} e.

End JS.

(** ** The WebGPU objects the program creates *)

Module GPU.

Inductive GPUBufferUsage := VERTEX | COPY_DST | UNIFORM | STORAGE.
Inductive GPUShaderStage := STAGE_VERTEX | STAGE_FRAGMENT | STAGE_COMPUTE.
Inductive GPUTextureFormat := bgra8unorm | rgba8unorm.
Inductive GPUBufferBindingType := uniform | read_only_storage | storage.

Record GPUBuffer := {
  buf_handle : nat;
  buf_label : string;
  buf_size : Z;
  buf_usage : list GPUBufferUsage }.

Record GPUShaderModule := {
  sm_handle : nat;
  sm_label : string;
  sm_code : string }.

Record GPUVertexAttribute := {
  format : string;
  offset : Z;
  shaderLocation : Z }.

Record GPUVertexBufferLayout := {
  arrayStride : Z;
  attributes : list GPUVertexAttribute }.

Record GPUBindGroupLayoutEntry := {
  le_binding : Z;
  le_visibility : list GPUShaderStage;
  le_buffer : GPUBufferBindingType }.

(** A bind group layout is either created from a descriptor or asked from
    a pipeline whose layout is ["auto"]. *)
Inductive GPUBindGroupLayout :=
| ExplicitLayout (handle : nat) (label : string)
                 (entries : list GPUBindGroupLayoutEntry)
| PipelineLayoutAt (pipeline : nat) (index : Z).

Inductive GPUPipelineLayout :=
| AutoLayout
| PipelineLayout (handle : nat) (label : string)
                 (bindGroupLayouts : list GPUBindGroupLayout).

Record GPURenderPipeline := {
  rp_handle : nat;
  rp_label : string;
  rp_layout : GPUPipelineLayout;
  rp_vertex_module : GPUShaderModule;
  rp_vertex_entryPoint : string;
  rp_vertex_buffers : list GPUVertexBufferLayout;
  rp_fragment_module : GPUShaderModule;
  rp_fragment_entryPoint : string;
  rp_fragment_targets : list GPUTextureFormat }.

Record GPUComputePipeline := {
  cp_handle : nat;
  cp_label : string;
  cp_layout : GPUPipelineLayout;
  cp_module : GPUShaderModule;
  cp_entryPoint : string }.

Record GPUBindGroupEntry := {
  binding : Z;
  resource : GPUBuffer }.

Record GPUBindGroup := {
  bg_handle : nat;
  bg_label : string;
  bg_layout : GPUBindGroupLayout;
  bg_entries : list GPUBindGroupEntry }.

(** The canvas context, once configured. *)
Record GPUCanvasContext := {
  ctx_handle : nat;
  ctx_format : option GPUTextureFormat }.

Record GPUColor := { r : Q; g : Q; b : Q; a : Q }.

Record GPURenderPassColorAttachment := {
  view : GPUCanvasContext;   (* getCurrentTexture().createView() of it *)
  loadOp : string;
  clearValue : GPUColor;
  storeOp : string }.

(** What an encoder records. *)
Inductive GPUCommand :=
| BeginComputePass
| ComputeSetPipeline (p : GPUComputePipeline)
| ComputeSetBindGroup (index : Z) (bg : option GPUBindGroup)
| DispatchWorkgroups (x y : Z)
| ComputeEnd
| BeginRenderPass (colorAttachments : list GPURenderPassColorAttachment)
| RenderSetPipeline (p : GPURenderPipeline)
| RenderSetBindGroup (index : Z) (bg : option GPUBindGroup)
| SetVertexBuffer (slot : Z) (buf : GPUBuffer)
| Draw (vertexCount : Q) (instanceCount : Z)
| RenderEnd.

Definition GPUCommandBuffer := list GPUCommand.

(** What the host asks of [device.queue]. *)
Inductive QueueOp :=
| WriteBuffer (buffer : GPUBuffer) (bufferOffset : Z) (data : JS.TypedArray)
| Submit (commandBuffers : list GPUCommandBuffer).

(** The device: the next free object handle and the queue log, oldest
    operation first. *)
Record GPUDevice := {
  next_handle : nat;
  queue : list QueueOp }.

(** Device calls thread the device through. *)
Definition M (A : Type) : Type := GPUDevice -> A * GPUDevice.

Definition ret {A} (x : A) : M A := fun d => (x, d).
Definition bind {A B} (c : M A) (k : A -> M B) : M B :=
  fun d => let (x, d') := c d in k x d'.

Definition fresh : M nat :=
  fun d => (next_handle d,
            {| next_handle := S (next_handle d); queue := queue d |}).

Definition enqueue (op : QueueOp) : M unit :=
  fun d => (tt, {| next_handle := next_handle d; queue := queue d ++ [op] |}).

End GPU.

Import GPU.

Notation "'let*' x := c 'in' k" := (GPU.bind c (fun x => k))
  (at level 10, x name, c at level 100, k at level 200).

(** ** The device calls the program makes *)

Module Device.

Definition createBuffer (label : string) (size : Z)
    (usage : list GPUBufferUsage) : M GPUBuffer :=
  let* h := fresh in
  ret {| buf_handle := h; buf_label := label; buf_size := size;
         buf_usage := usage |}.

Definition createShaderModule (label code : string) : M GPUShaderModule :=
  let* h := fresh in
  ret {| sm_handle := h; sm_label := label; sm_code := code |}.

Definition createBindGroupLayout (label : string)
    (entries : list GPUBindGroupLayoutEntry) : M GPUBindGroupLayout :=
  let* h := fresh in
  ret (ExplicitLayout h label entries).

Definition createPipelineLayout (label : string)
    (bindGroupLayouts : list GPUBindGroupLayout) : M GPUPipelineLayout :=
  let* h := fresh in
  ret (PipelineLayout h label bindGroupLayouts).

Definition createBindGroup (label : string) (layout : GPUBindGroupLayout)
    (entries : list GPUBindGroupEntry) : M GPUBindGroup :=
  let* h := fresh in
  ret {| bg_handle := h; bg_label := label; bg_layout := layout;
         bg_entries := entries |}.

Definition createRenderPipeline (label : string) (layout : GPUPipelineLayout)
    (vmodule : GPUShaderModule) (ventry : string)
    (buffers : list GPUVertexBufferLayout)
    (fmodule : GPUShaderModule) (fentry : string)
    (targets : list GPUTextureFormat) : M GPURenderPipeline :=
  let* h := fresh in
  ret {| rp_handle := h; rp_label := label; rp_layout := layout;
         rp_vertex_module := vmodule; rp_vertex_entryPoint := ventry;
         rp_vertex_buffers := buffers;
         rp_fragment_module := fmodule; rp_fragment_entryPoint := fentry;
         rp_fragment_targets := targets |}.

Definition createComputePipeline (label : string) (layout : GPUPipelineLayout)
    (cmodule : GPUShaderModule) (centry : string) : M GPUComputePipeline :=
  let* h := fresh in
  ret {| cp_handle := h; cp_label := label; cp_layout := layout;
         cp_module := cmodule; cp_entryPoint := centry |}.

(** [pipeline.getBindGroupLayout(index)]. *)
Definition getBindGroupLayout (p : GPURenderPipeline) (index : Z)
  : GPUBindGroupLayout := PipelineLayoutAt (rp_handle p) index.

(** [device.queue.writeBuffer(buffer, offset, data)]. *)
Definition writeBuffer (buffer : GPUBuffer) (bufferOffset : Z)
    (data : JS.TypedArray) : M unit :=
  enqueue (WriteBuffer buffer bufferOffset data).

(** [device.queue.submit(commandBuffers)]. *)
Definition submit (commandBuffers : list GPUCommandBuffer) : M unit :=
  enqueue (Submit commandBuffers).

End Device.

(** ** Observations on the queue log and on command buffers *)

Module Observe.

(** Objects are the same when their handles are. *)
Definition sameBuffer (x y : GPUBuffer) : bool :=
  Nat.eqb (buf_handle x) (buf_handle y).

(** Every command buffer handed to [queue.submit], oldest first. *)
Definition submitted (d : GPUDevice) : list GPUCommandBuffer :=
  flat_map (fun op => match op with
                      | Submit cbs => cbs
                      | WriteBuffer _ _ _ => []
                      end) (queue d).

(** The command buffer submitted last. *)
Definition issued (d : GPUDevice) : GPUCommandBuffer :=
  List.last (submitted d) [].

(** Every host upload [queue.writeBuffer(buffer, offset, data)]. *)
Definition uploads (d : GPUDevice) : list (GPUBuffer * Z * JS.TypedArray) :=
  flat_map (fun op => match op with
                      | WriteBuffer buf off data => [(buf, off, data)]
                      | Submit _ => []
                      end) (queue d).

(** The data uploaded to one buffer. *)
Definition uploadsTo (buf : GPUBuffer) (d : GPUDevice) : list JS.TypedArray :=
  flat_map (fun u => match u with
                     | (target, _, data) =>
                       if sameBuffer target buf then [data] else []
                     end) (uploads d).

Definition isSubmit (op : QueueOp) : bool :=
  match op with Submit _ => true | WriteBuffer _ _ _ => false end.

(** The bind groups a command buffer sets in its compute and in its render
    pass ([None] inside the list is [undefined]). *)
Definition computeBindGroups (cb : GPUCommandBuffer)
  : list (option GPUBindGroup) :=
  flat_map (fun c => match c with
                     | ComputeSetBindGroup _ bg => [bg]
                     | _ => []
                     end) cb.

Definition renderBindGroups (cb : GPUCommandBuffer)
  : list (option GPUBindGroup) :=
  flat_map (fun c => match c with
                     | RenderSetBindGroup _ bg => [bg]
                     | _ => []
                     end) cb.

Definition dispatches (cb : GPUCommandBuffer) : list (Z * Z) :=
  flat_map (fun c => match c with
                     | DispatchWorkgroups x y => [(x, y)]
                     | _ => []
                     end) cb.

Definition draws (cb : GPUCommandBuffer) : list (Q * Z) :=
  flat_map (fun c => match c with
                     | Draw v i => [(v, i)]
                     | _ => []
                     end) cb.

Definition isComputeCommand (c : GPUCommand) : bool :=
  match c with
  | BeginComputePass | ComputeSetPipeline _ | ComputeSetBindGroup _ _
  | DispatchWorkgroups _ _ | ComputeEnd => true
  | _ => false
  end.

(** The buffer a bind group has at binding [n]. *)
Definition bound (n : Z) (bg : GPUBindGroup) : option GPUBuffer :=
  resource <$> List.find (fun e => Z.eqb (binding e) n) (bg_entries bg).

(** The storage buffer the compute dispatch of a command buffer reads
    (binding 1) and the one it writes (binding 2). *)
Definition computeInput (cb : GPUCommandBuffer) : option GPUBuffer :=
  match computeBindGroups cb with
  | [Some bg] => bound 1 bg
  | _ => None
  end.

Definition computeOutput (cb : GPUCommandBuffer) : option GPUBuffer :=
  match computeBindGroups cb with
  | [Some bg] => bound 2 bg
  | _ => None
  end.

(** Bind group [b] is bind group [a] with bindings 1 and 2 exchanged. *)
Definition exchanged (a b : GPUBindGroup) : Prop :=
  bound 1 b = bound 2 a /\ bound 2 b = bound 1 a.

End Observe.

(** ** Device and context bootstrap (the same lines in both variants) *)

Module Bootstrap.

Import JS.

(** What the browser offers: the page's canvas element (or [null]) with the
    WebGPU context it gives (or [null]); [navigator.gpu] (or [undefined]);
    the adapter it returns (or [null]); and whether the adapter's
    [requestDevice()] resolves or rejects, with what reason. *)
Record GPUAdapter := {
  adapter_name : string;
  requestDevice_rejection : option string }.

Record NavigatorGPU := {
  requestAdapter : option GPUAdapter;
  getPreferredCanvasFormat : GPUTextureFormat }.

Record HTMLCanvasElement := {
  getContext_webgpu : option nat }.

Record Browser := {
  document_querySelector_canvas : option HTMLCanvasElement;
  navigator_gpu : option NavigatorGPU }.

(** [await adapter.requestDevice()]: a device with nothing created and
    nothing queued, or the rejection thrown at the [await]. *)
Definition requestDevice (adapter : GPUAdapter) : Result GPUDevice :=
  match requestDevice_rejection adapter with
  | Some reason => Throw (Rejection reason)
  | None => Ok {| next_handle := 0%nat; queue := [] |}
  end.

Record Handles := {
  adapter : GPUAdapter;
  device : GPUDevice;
  context : GPUCanvasContext;
  canvasFormat : GPUTextureFormat }.

Definition bootstrap (w : Browser) : Result Handles :=
  (* document.querySelector("canvas")! -- the [!] is erased at run time *)
  let canvas := document_querySelector_canvas w in
  match navigator_gpu w with
  | None => Throw (Error "WebGPU not supported on this browser.")
  | Some gpu =>
    match requestAdapter gpu with
    | None => Throw (Error "No appropriate GPUAdapter found.")
    | Some adapter =>
      match requestDevice adapter with
      | Throw e => Throw e
      | Ok device =>
        match canvas with
        | None => Throw TypeError   (* canvas.getContext("webgpu") on null *)
        | Some canvas =>
          match getContext_webgpu canvas with
          | None => Throw (Error "Unable to obtain WebGPU context.")
          | Some c =>
            let canvasFormat := getPreferredCanvasFormat gpu in
            (* context.configure({device, format}) *)
            let context :=
              {| ctx_handle := c; ctx_format := Some canvasFormat |} in
            Ok {| adapter := adapter; device := device; context := context;
                  canvasFormat := canvasFormat |}
          end
        end
      end
    end
  end.

End Bootstrap.

(** ** src/main.ts: the full variant *)

Module Main.

Import JS Device Bootstrap.

Section Program.

(** [import cellShaderCode from './cellShader.wgsl'] and
    [import computeShaderCode from './computeShader.wgsl']. *)
Variables cellShaderCode computeShaderCode : string.

(** [const GRID_SIZE = 128; const WORKGROUP_SIZE = 8;] -- section
    variables, fixed to the source's values in [Reference] below. *)
Variables GRID_SIZE WORKGROUP_SIZE : Z.

(** [Math.random()]: the value returned by the i-th call. *)
Variable random : nat -> Q.

Definition vertices : TypedArray := Float32Array
  [ -0.8; -0.8;
     0.8; -0.8;
     0.8;  0.8;

    -0.8; -0.8;
     0.8;  0.8;
    -0.8;  0.8 ]%Q.

Definition uniformArray : TypedArray :=
  Float32Array [inject_Z GRID_SIZE; inject_Z GRID_SIZE].

(** [Math.random() > 0.6 ? 1 : 0], for the value [x] of the call. *)
Definition seedCell (x : Q) : Z := if gt x 0.6 then 1 else 0.

(** [for (let i = 0; i < cellStateArray.length; ++i)
       cellStateArray[i] = Math.random() > 0.6 ? 1 : 0;]
    with [n] iterations left to run from index [i]. *)
Fixpoint seedLoop (n i : nat) (cellStateArray : list Z) : list Z :=
  match n with
  | O => cellStateArray
  | S n' =>
    seedLoop n' (S i) (<[i := ToUint32 (seedCell (random i))]> cellStateArray)
  end.

(** [cellStateArray] as it is when uploaded: allocated with zeros, then
    seeded in place (its length, hence its [byteLength], never changes). *)
Definition cellStateArray : TypedArray :=
  let cellStateArray := new_Uint32Array (GRID_SIZE * GRID_SIZE) in
  Uint32Array (seedLoop (List.length cellStateArray) 0 cellStateArray).

Definition vertexBufferLayout : GPUVertexBufferLayout :=
  {| arrayStride := 8;
     attributes := [ {| format := "float32x2"; offset := 0;
                        shaderLocation := 0 |} ] |}.

(** The module's [const] bindings. *)
Record Globals := {
  context : GPUCanvasContext;
  canvasFormat : GPUTextureFormat;
  vertexBuffer : GPUBuffer;
  uniformBuffer : GPUBuffer;
  cellStateStorage : list GPUBuffer;
  cellShaderModule : GPUShaderModule;
  simulationShaderModule : GPUShaderModule;
  bindGroupLayout : GPUBindGroupLayout;
  bindGroups : list GPUBindGroup;
  pipelineLayout : GPUPipelineLayout;
  cellPipeline : GPURenderPipeline;
  simulationPipeline : GPUComputePipeline }.

(** Lines 39-178: buffers, uploads, layouts, bind groups, pipelines. *)
Definition setup (context : GPUCanvasContext)
    (canvasFormat : GPUTextureFormat) : M Globals :=
  let* vertexBuffer :=
    createBuffer "Cell vertices" (byteLength vertices) [VERTEX; COPY_DST] in
  let* uniformBuffer :=
    createBuffer "Grid Uniforms" (byteLength uniformArray)
                 [UNIFORM; COPY_DST] in
  let* cellStateStorage0 :=
    createBuffer "Cell State A" (byteLength cellStateArray)
                 [STORAGE; COPY_DST] in
  let* cellStateStorage1 :=
    createBuffer "Cell State B" (byteLength cellStateArray)
                 [STORAGE; COPY_DST] in
  let cellStateStorage := [cellStateStorage0; cellStateStorage1] in
  let* _ := writeBuffer cellStateStorage0 0 cellStateArray in
  let* _ := writeBuffer vertexBuffer 0 vertices in
  let* _ := writeBuffer uniformBuffer 0 uniformArray in
  let* cellShaderModule :=
    createShaderModule "Cell shader" cellShaderCode in
  let* simulationShaderModule :=
    createShaderModule "Game of Life simulation shader"
                       computeShaderCode in
  let* bindGroupLayout :=
    createBindGroupLayout "Cell Bind Group Layout"
      [ {| le_binding := 0;
           le_visibility := [STAGE_VERTEX; STAGE_COMPUTE; STAGE_FRAGMENT];
           le_buffer := uniform |};
        {| le_binding := 1;
           le_visibility := [STAGE_VERTEX; STAGE_COMPUTE];
           le_buffer := read_only_storage |};
        {| le_binding := 2;
           le_visibility := [STAGE_COMPUTE];
           le_buffer := storage |} ] in
  let* bindGroupA :=
    createBindGroup "Cell renderer bind group A" bindGroupLayout
      [ {| binding := 0; resource := uniformBuffer |};
        {| binding := 1; resource := cellStateStorage0 |};
        {| binding := 2; resource := cellStateStorage1 |} ] in
  let* bindGroupB :=
    createBindGroup "Cell renderer bind group B" bindGroupLayout
      [ {| binding := 0; resource := uniformBuffer |};
        {| binding := 1; resource := cellStateStorage1 |};
        {| binding := 2; resource := cellStateStorage0 |} ] in
  let bindGroups := [bindGroupA; bindGroupB] in
  let* pipelineLayout :=
    createPipelineLayout "Cell Pipeline Layout" [bindGroupLayout] in
  let* cellPipeline :=
    createRenderPipeline "Cell pipeline" pipelineLayout
      cellShaderModule "vertexMain" [vertexBufferLayout]
      cellShaderModule "fragmentMain" [canvasFormat] in
  let* simulationPipeline :=
    createComputePipeline "Simulation pipeline" pipelineLayout
      simulationShaderModule "computeMain" in
  ret {| context := context;
         canvasFormat := canvasFormat;
         vertexBuffer := vertexBuffer;
         uniformBuffer := uniformBuffer;
         cellStateStorage := cellStateStorage;
         cellShaderModule := cellShaderModule;
         simulationShaderModule := simulationShaderModule;
         bindGroupLayout := bindGroupLayout;
         bindGroups := bindGroups;
         pipelineLayout := pipelineLayout;
         cellPipeline := cellPipeline;
         simulationPipeline := simulationPipeline |}.

Definition UPDATE_INTERVAL : Z := 200.

(** The running program: the constants, [let step], and the device. *)
Record Program := {
  globals : Globals;
  step : Z;
  device : GPUDevice }.

(** [function updateGrid()]; the encoder is the list of commands
    recorded so far. *)
Definition updateGrid (p : Program) : Program :=
  let c := globals p in
  let step := step p in
  let encoder : GPUCommandBuffer := [] in
  let encoder := encoder ++ [BeginComputePass] in
  let encoder := encoder ++ [ComputeSetPipeline (simulationPipeline c)] in
  let encoder := encoder ++
    [ComputeSetBindGroup 0 (index (bindGroups c) (Z.rem step 2))] in
  let workgroupCount : Z :=
    Math_ceil (div (inject_Z GRID_SIZE) (inject_Z WORKGROUP_SIZE)) in
  let encoder := encoder ++
    [DispatchWorkgroups workgroupCount workgroupCount] in
  let encoder := encoder ++ [ComputeEnd] in
  let step := step + 1 in
  let encoder := encoder ++
    [BeginRenderPass
       [ {| view := context c;
            loadOp := "clear";
            clearValue := {| r := 0; g := 0; b := 0.4; a := 1.0 |};
            storeOp := "store" |} ]] in
  let encoder := encoder ++ [RenderSetPipeline (cellPipeline c)] in
  let encoder := encoder ++
    [RenderSetBindGroup 0 (index (bindGroups c) (Z.rem step 2))] in
  let encoder := encoder ++ [SetVertexBuffer 0 (vertexBuffer c)] in
  let encoder := encoder ++
    [Draw (div (inject_Z (length vertices)) 2) (GRID_SIZE * GRID_SIZE)] in
  let encoder := encoder ++ [RenderEnd] in
  let (_, device) := submit [encoder] (device p) in
  {| globals := c; step := step; device := device |}.

(** The module body after the bootstrap: setup, then [let step = 0]. *)
Definition start (h : Handles) : Program :=
  let (c, device) :=
    setup (Bootstrap.context h) (Bootstrap.canvasFormat h)
          (Bootstrap.device h) in
  {| globals := c; step := 0; device := device |}.

(** The buffers the setup creates, by the handle the device gives them. *)
Definition vertexBufferOf (h : Handles) : GPUBuffer :=
  {| buf_handle := next_handle (Bootstrap.device h);
     buf_label := "Cell vertices";
     buf_size := byteLength vertices;
     buf_usage := [VERTEX; COPY_DST] |}.

Definition uniformBufferOf (h : Handles) : GPUBuffer :=
  {| buf_handle := S (next_handle (Bootstrap.device h));
     buf_label := "Grid Uniforms";
     buf_size := byteLength (uniformArray);
     buf_usage := [UNIFORM; COPY_DST] |}.

Definition cellStateA (h : Handles) : GPUBuffer :=
  {| buf_handle := S (S (next_handle (Bootstrap.device h)));
     buf_label := "Cell State A";
     buf_size := byteLength cellStateArray;
     buf_usage := [STORAGE; COPY_DST] |}.

Definition cellStateB (h : Handles) : GPUBuffer :=
  {| buf_handle := S (S (S (next_handle (Bootstrap.device h))));
     buf_label := "Cell State B";
     buf_size := byteLength cellStateArray;
     buf_usage := [STORAGE; COPY_DST] |}.

(** Module evaluation up to [setInterval]. *)
Definition main (w : Browser) : Result Program :=
  match bootstrap w with
  | Throw m => Throw m
  | Ok h => Ok (start h)
  end.

(** [setInterval(updateGrid, UPDATE_INTERVAL)]: the program after the
    timer has fired [n] times. *)
Fixpoint frames (n : nat) (p : Program) : Program :=
  match n with
  | O => p
  | S n' => updateGrid (frames n' p)
  end.

(** The command buffer submitted by the timer's call number [k] (from 0):
    the last one in the queue once [k + 1] calls have run. *)
Definition frame (p : Program) (k : nat) : GPUCommandBuffer :=
  Observe.issued (device (frames (S k) p)).

End Program.

End Main.

(** ** The render-only variant (GRID_SIZE = 32, one render pass, no timer) *)

Module RenderOnly.

Import JS Device Bootstrap.

Section Program.

Variable cellShaderCode : string.
Variable GRID_SIZE : Z.

Definition vertices : TypedArray := Float32Array
  [ -0.8; -0.8;
     0.8; -0.8;
     0.8;  0.8;

    -0.8; -0.8;
     0.8;  0.8;
    -0.8;  0.8 ]%Q.

Definition uniformArray : TypedArray :=
  Float32Array [inject_Z GRID_SIZE; inject_Z GRID_SIZE].

Definition vertexBufferLayout : GPUVertexBufferLayout :=
  {| arrayStride := 8;
     attributes := [ {| format := "float32x2"; offset := 0;
                        shaderLocation := 0 |} ] |}.

Record Program := {
  vertexBuffer : GPUBuffer;
  uniformBuffer : GPUBuffer;
  cellPipeline : GPURenderPipeline;
  bindGroup : GPUBindGroup;
  device : GPUDevice }.

(** Lines 26-112, after the bootstrap. *)
Definition render (context : GPUCanvasContext)
    (canvasFormat : GPUTextureFormat) : M (GPUBuffer * GPUBuffer *
                                           GPURenderPipeline * GPUBindGroup) :=
  let encoder : GPUCommandBuffer := [] in
  let* vertexBuffer :=
    createBuffer "Cell vertices" (byteLength vertices) [VERTEX; COPY_DST] in
  let* uniformBuffer :=
    createBuffer "Grid Uniforms" (byteLength uniformArray)
                 [UNIFORM; COPY_DST] in
  let* _ := writeBuffer vertexBuffer 0 vertices in
  let* _ := writeBuffer uniformBuffer 0 uniformArray in
  let* cellShaderModule :=
    createShaderModule "Cell shader" cellShaderCode in
  let* cellPipeline :=
    createRenderPipeline "Cell pipeline" AutoLayout
      cellShaderModule "vertexMain" [vertexBufferLayout]
      cellShaderModule "fragmentMain" [canvasFormat] in
  let* bindGroup :=
    createBindGroup "Cell renderer bind group"
      (getBindGroupLayout cellPipeline 0)
      [ {| binding := 0; resource := uniformBuffer |} ] in
  let encoder := encoder ++
    [BeginRenderPass
       [ {| view := context;
            loadOp := "clear";
            clearValue := {| r := 0; g := 0; b := 0.4; a := 1 |};
            storeOp := "store" |} ]] in
  let encoder := encoder ++ [RenderSetPipeline cellPipeline] in
  let encoder := encoder ++ [SetVertexBuffer 0 vertexBuffer] in
  let encoder := encoder ++ [RenderSetBindGroup 0 (Some bindGroup)] in
  let encoder := encoder ++
    [Draw (div (inject_Z (length vertices)) 2) (GRID_SIZE * GRID_SIZE)] in
  let encoder := encoder ++ [RenderEnd] in
  let* _ := submit [encoder] in
  ret (vertexBuffer, uniformBuffer, cellPipeline, bindGroup).

Definition start (h : Handles) : Program :=
  let '(vertexBuffer, uniformBuffer, cellPipeline, bindGroup, device) :=
    render (Bootstrap.context h) (Bootstrap.canvasFormat h)
           (Bootstrap.device h) in
  {| vertexBuffer := vertexBuffer; uniformBuffer := uniformBuffer;
     cellPipeline := cellPipeline; bindGroup := bindGroup;
     device := device |}.

Definition main (w : Browser) : Result Program :=
  match bootstrap w with
  | Throw m => Throw m
  | Ok h => Ok (start h)
  end.

End Program.

End RenderOnly.

(** ** The constants of the source *)

Module Reference.

(** [const GRID_SIZE = 128; const WORKGROUP_SIZE = 8;] in src/main.ts. *)
Definition GRID_SIZE : Z := 128.
Definition WORKGROUP_SIZE : Z := 8.

(** [const GRID_SIZE = 32;] in the render-only variant. *)
Definition RENDER_ONLY_GRID_SIZE : Z := 32.

Definition main (cellShaderCode computeShaderCode : string)
    (random : nat -> Q) :=
  Main.main cellShaderCode computeShaderCode GRID_SIZE random.

Definition updateGrid := Main.updateGrid GRID_SIZE WORKGROUP_SIZE.
Definition frames := Main.frames GRID_SIZE WORKGROUP_SIZE.

Definition renderOnly (cellShaderCode : string) :=
  RenderOnly.main cellShaderCode RENDER_ONLY_GRID_SIZE.

End Reference.

(** ** The seeding rule as the specification words it *)

Module Spec.

(** "a cell whose per-cell random value is greater than the 0.6 threshold
    is set to dead (state 0) and otherwise to alive (state 1)" *)
Definition seedsAsClaimed (seedCell : Q -> Z) (x : Q) : Prop :=
  ((0.6 < x)%Q -> seedCell x = 0) /\ (~ (0.6 < x)%Q -> seedCell x = 1).

(** "Initialization aborts ... exactly when the platform lacks GPU support
    (navigator.gpu absent), when no adapter is returned, or when the
    drawable surface context cannot be obtained" *)
Definition abortsAsClaimed {P : Type}
    (main : Bootstrap.Browser -> JS.Result P) (w : Bootstrap.Browser) : Prop :=
  (exists e, main w = JS.Throw e) <->
  (Bootstrap.navigator_gpu w = None
   \/ (exists gpu, Bootstrap.navigator_gpu w = Some gpu
                    /\ Bootstrap.requestAdapter gpu = None)
   \/ (forall canvas,
         Bootstrap.document_querySelector_canvas w = Some canvas ->
         Bootstrap.getContext_webgpu canvas = None)).

(** [ceil(N / tileSize)]: the least count of tiles covering [N] cells. *)
Definition isCeilOf (N tileSize w : Z) : Prop :=
  (w - 1) * tileSize < N <= w * tileSize.

End Spec.

(** ** A browser with WebGPU, for concrete runs *)

Module Sample.

Import Bootstrap.

Definition integrated : GPUAdapter :=
  {| adapter_name := "integrated"; requestDevice_rejection := None |}.

Definition canvas : HTMLCanvasElement := {| getContext_webgpu := Some 0%nat |}.

Definition browser : Browser :=
  {| document_querySelector_canvas := Some canvas;
     navigator_gpu :=
       Some {| requestAdapter := Some integrated;
               getPreferredCanvasFormat := bgra8unorm |} |}.

Definition handles : Handles :=
  {| adapter := integrated;
     device := {| next_handle := 0%nat; queue := [] |};
     context := {| ctx_handle := 0%nat; ctx_format := Some bgra8unorm |};
     canvasFormat := bgra8unorm |}.

(** Browsers on which one of the three checks fails. *)
Definition noGPU : Browser :=
  {| document_querySelector_canvas := Some canvas; navigator_gpu := None |}.

Definition noAdapter : Browser :=
  {| document_querySelector_canvas := Some canvas;
     navigator_gpu :=
       Some {| requestAdapter := None;
               getPreferredCanvasFormat := bgra8unorm |} |}.

Definition noContext : Browser :=
  {| document_querySelector_canvas := Some {| getContext_webgpu := None |};
     navigator_gpu :=
       Some {| requestAdapter := Some integrated;
               getPreferredCanvasFormat := bgra8unorm |} |}.

(** A browser whose adapter refuses the device, and a page with no canvas
    element; everything else is in place. *)
Definition rejectingDevice : Browser :=
  {| document_querySelector_canvas := Some canvas;
     navigator_gpu :=
       Some {| requestAdapter :=
                 Some {| adapter_name := "integrated";
                         requestDevice_rejection := Some "OperationError"%string |};
               getPreferredCanvasFormat := bgra8unorm |} |}.

Definition noCanvas : Browser :=
  {| document_querySelector_canvas := None;
     navigator_gpu :=
       Some {| requestAdapter := Some integrated;
               getPreferredCanvasFormat := bgra8unorm |} |}.

(** A random source alternating 0.25 and 0.75. *)
Definition random (i : nat) : Q := if Nat.even i then 0.25 else 0.75.

(** The full variant on a 4x4 grid, and at the source's size. *)
Definition program : Main.Program :=
  Main.start "cell" "compute" 4 random handles.

Definition reference : Main.Program :=
  Main.start "cell" "compute" Reference.GRID_SIZE random handles.

(** The render-only variant at the source's size. *)
Definition renderOnly : RenderOnly.Program :=
  RenderOnly.start "cell" Reference.RENDER_ONLY_GRID_SIZE handles.

End Sample.

(** ** What WebGPU validates about the calls the program makes *)

Module Validate.

Definition sameUsage (x y : GPUBufferUsage) : bool :=
  match x, y with
  | VERTEX, VERTEX | COPY_DST, COPY_DST
  | UNIFORM, UNIFORM | STORAGE, STORAGE => true
  | _, _ => false
  end.

Definition sameStage (x y : GPUShaderStage) : bool :=
  match x, y with
  | STAGE_VERTEX, STAGE_VERTEX | STAGE_FRAGMENT, STAGE_FRAGMENT
  | STAGE_COMPUTE, STAGE_COMPUTE => true
  | _, _ => false
  end.

(** The buffer was created with this usage flag. *)
Definition hasUsage (u : GPUBufferUsage) (buf : GPUBuffer) : bool :=
  existsb (sameUsage u) (buf_usage buf).

(** [queue.writeBuffer] needs a [COPY_DST] buffer and the written range
    inside it; the upload fills the buffer when the range is all of it. *)
Definition uploadFills (u : GPUBuffer * Z * JS.TypedArray) : bool :=
  match u with
  | (buf, off, data) =>
    hasUsage COPY_DST buf && (off =? 0) && (JS.byteLength data =? buf_size buf)
  end.

(** The usage a buffer needs to be bound under a layout entry. *)
Definition usageFor (t : GPUBufferBindingType) : GPUBufferUsage :=
  match t with
  | uniform => UNIFORM
  | read_only_storage | storage => STORAGE
  end.

Definition layoutEntries (l : GPUBindGroupLayout)
  : list GPUBindGroupLayoutEntry :=
  match l with
  | ExplicitLayout _ _ entries => entries
  | PipelineLayoutAt _ _ => []
  end.

(** [createBindGroup] needs one entry per layout entry, with the same
    binding number and a buffer of the usage the entry's type asks for. *)
Fixpoint conforms (layout : list GPUBindGroupLayoutEntry)
    (entries : list GPUBindGroupEntry) : bool :=
  match layout, entries with
  | [], [] => true
  | le :: layout', e :: entries' =>
    (le_binding le =? binding e)
    && hasUsage (usageFor (le_buffer le)) (resource e)
    && conforms layout' entries'
  | _, _ => false
  end.

(** The binding numbers of a layout a shader stage can see. *)
Definition visibleTo (stage : GPUShaderStage) (l : GPUBindGroupLayout)
  : list Z :=
  le_binding <$>
    List.filter (fun le => existsb (sameStage stage) (le_visibility le))
                (layoutEntries l).

(** The bind group layout a pipeline layout has at a [setBindGroup]
    index. *)
Definition layoutAt (pl : GPUPipelineLayout) (i : Z)
  : option GPUBindGroupLayout :=
  match pl with
  | AutoLayout => None
  | PipelineLayout _ _ layouts => JS.index layouts i
  end.

(** What a command buffer sets, with the index or slot it sets it at. *)
Definition computeBindings (cb : GPUCommandBuffer)
  : list (Z * option GPUBindGroup) :=
  flat_map (fun c => match c with
                     | ComputeSetBindGroup i bg => [(i, bg)]
                     | _ => []
                     end) cb.

Definition renderBindings (cb : GPUCommandBuffer)
  : list (Z * option GPUBindGroup) :=
  flat_map (fun c => match c with
                     | RenderSetBindGroup i bg => [(i, bg)]
                     | _ => []
                     end) cb.

Definition computePipelines (cb : GPUCommandBuffer) : list GPUComputePipeline :=
  flat_map (fun c => match c with
                     | ComputeSetPipeline p => [p]
                     | _ => []
                     end) cb.

Definition renderPipelines (cb : GPUCommandBuffer) : list GPURenderPipeline :=
  flat_map (fun c => match c with
                     | RenderSetPipeline p => [p]
                     | _ => []
                     end) cb.

Definition vertexBuffers (cb : GPUCommandBuffer) : list (Z * GPUBuffer) :=
  flat_map (fun c => match c with
                     | SetVertexBuffer slot buf => [(slot, buf)]
                     | _ => []
                     end) cb.

(** The canvas contexts whose current texture the render passes draw to. *)
Definition colorTargets (cb : GPUCommandBuffer) : list GPUCanvasContext :=
  flat_map (fun c => match c with
                     | BeginRenderPass atts => view <$> atts
                     | _ => []
                     end) cb.

(** The storage buffer the render pass of a command buffer reads
    (binding 1 of its bind group). *)
Definition renderInput (cb : GPUCommandBuffer) : option GPUBuffer :=
  match Observe.renderBindGroups cb with
  | [Some bg] => Observe.bound 1 bg
  | _ => None
  end.

(** The seeding loop in closed form: cell [j] from draw [j]. *)
Definition seedsOf (random : nat -> Q) (n : nat) : list Z :=
  (fun j => Main.seedCell (random j)) <$> seq 0 n.

End Validate.

(** * Properties *)

Import JS Device Bootstrap Observe.

(** ** Arithmetic of the source's number expressions *)

Lemma rem2_succ (s : Z) : Z.rem s 2 <> Z.rem (s + 1) 2.
Proof.
  rewrite !Zrem_odd, Z.odd_add. simpl (Z.odd 1).
  destruct (Z.odd s) eqn:Hodd; simpl.
  - destruct s; simpl; discriminate.
  - destruct (s + 1) eqn:Hs; simpl; try discriminate.
    rewrite <- Hs in *. replace s with (-1) in Hodd by lia. discriminate.
Qed.

Lemma even_of_nat (n : nat) : Z.even (Z.of_nat n) = Nat.even n.
Proof.
  induction n as [n IH] using (well_founded_induction lt_wf).
  destruct n as [|[|n]]; try reflexivity.
  replace (Z.of_nat (S (S n))) with (Z.of_nat n + 2) by lia.
  rewrite Z.even_add, IH by lia. simpl. now destruct (Nat.even n).
Qed.

Lemma rem2_of_nat (n : nat) :
  Z.rem (Z.of_nat n) 2 = if Nat.even n then 0 else 1.
Proof.
  rewrite Zrem_even, even_of_nat.
  destruct (Nat.even n) eqn:He; [reflexivity|].
  destruct n; [discriminate | reflexivity].
Qed.

Lemma Math_ceil_div (N T : Z) :
  0 < T ->
  Math_ceil (div (inject_Z N) (inject_Z T)) = - ((- N) / T).
Proof.
  intros HT. unfold Math_ceil, div.
  rewrite (Qceiling_comp _ _ (Qred_correct _)).
  unfold Qceiling, Qfloor.
  destruct T as [|t|t]; try lia.
  simpl. rewrite !Z.mul_1_r. reflexivity.
Qed.

Lemma ceil_covers (N T : Z) :
  0 < T -> Spec.isCeilOf N T (- ((- N) / T)).
Proof.
  intros HT. unfold Spec.isCeilOf.
  pose proof (Z.div_mod (- N) T ltac:(lia)) as Hdm.
  pose proof (Z.mod_pos_bound (- N) T HT) as Hb.
  nia.
Qed.

Lemma ceil_unique (N T w w' : Z) :
  0 < T -> Spec.isCeilOf N T w -> Spec.isCeilOf N T w' -> w = w'.
Proof. unfold Spec.isCeilOf. intros HT H H'. nia. Qed.

(** ** One call of [updateGrid], and [n] of them *)

Section FrameDriver.

Variables GRID_SIZE WORKGROUP_SIZE : Z.

Local Abbreviation updateGrid := (Main.updateGrid GRID_SIZE WORKGROUP_SIZE).
Local Abbreviation frames := (Main.frames GRID_SIZE WORKGROUP_SIZE).

Lemma updateGrid_globals p : Main.globals (updateGrid p) = Main.globals p.
Proof. reflexivity. Qed.

Lemma updateGrid_step p : Main.step (updateGrid p) = Main.step p + 1.
Proof. reflexivity. Qed.

Lemma updateGrid_next_handle p :
  next_handle (Main.device (updateGrid p)) = next_handle (Main.device p).
Proof. reflexivity. Qed.

Lemma submitted_snoc d h cb :
  submitted {| next_handle := h; queue := queue d ++ [Submit [cb]] |}
  = submitted d ++ [cb].
Proof. unfold submitted. simpl. now rewrite flat_map_app. Qed.

Lemma uploads_snoc d h cbs :
  uploads {| next_handle := h; queue := queue d ++ [Submit cbs] |}
  = uploads d.
Proof.
  unfold uploads. simpl. rewrite flat_map_app. simpl. apply app_nil_r.
Qed.

(** The command buffer a call submits, written out. *)
Lemma issued_updateGrid p :
  issued (Main.device (updateGrid p)) =
  [ BeginComputePass;
    ComputeSetPipeline (Main.simulationPipeline (Main.globals p));
    ComputeSetBindGroup 0
      (index (Main.bindGroups (Main.globals p)) (Z.rem (Main.step p) 2));
    DispatchWorkgroups
      (Math_ceil (div (inject_Z GRID_SIZE) (inject_Z WORKGROUP_SIZE)))
      (Math_ceil (div (inject_Z GRID_SIZE) (inject_Z WORKGROUP_SIZE)));
    ComputeEnd;
    BeginRenderPass
      [ {| view := Main.context (Main.globals p);
           loadOp := "clear";
           clearValue := {| r := 0; g := 0; b := 0.4; a := 1.0 |};
           storeOp := "store" |} ];
    RenderSetPipeline (Main.cellPipeline (Main.globals p));
    RenderSetBindGroup 0
      (index (Main.bindGroups (Main.globals p))
             (Z.rem (Main.step p + 1) 2));
    SetVertexBuffer 0 (Main.vertexBuffer (Main.globals p));
    Draw 6 (GRID_SIZE * GRID_SIZE);
    RenderEnd ].
Proof.
  unfold issued, Main.updateGrid, submit, enqueue. cbv zeta.
  cbv beta iota. cbn [Main.device].
  rewrite submitted_snoc, last_last. reflexivity.
Qed.

Lemma updateGrid_queue p :
  queue (Main.device (updateGrid p))
  = queue (Main.device p) ++ [Submit [issued (Main.device (updateGrid p))]].
Proof.
  rewrite issued_updateGrid. reflexivity.
Qed.

Lemma updateGrid_submitted p :
  submitted (Main.device (updateGrid p))
  = submitted (Main.device p) ++ [issued (Main.device (updateGrid p))].
Proof.
  unfold submitted at 1. rewrite updateGrid_queue, flat_map_app.
  simpl. reflexivity.
Qed.

Lemma updateGrid_uploads p :
  uploads (Main.device (updateGrid p)) = uploads (Main.device p).
Proof.
  unfold uploads. rewrite updateGrid_queue, flat_map_app. simpl.
  apply app_nil_r.
Qed.

Lemma frames_globals n p : Main.globals (frames n p) = Main.globals p.
Proof.
  induction n as [|n IH]; simpl Main.frames; [reflexivity|].
  now rewrite updateGrid_globals.
Qed.

Lemma frames_step n p : Main.step (frames n p) = Main.step p + Z.of_nat n.
Proof.
  induction n as [|n IH]; simpl Main.frames.
  - lia.
  - rewrite updateGrid_step, IH. lia.
Qed.

Lemma frames_next_handle n p :
  next_handle (Main.device (frames n p)) = next_handle (Main.device p).
Proof.
  induction n as [|n IH]; simpl Main.frames; [reflexivity|].
  now rewrite updateGrid_next_handle.
Qed.

Lemma frames_uploads n p :
  uploads (Main.device (frames n p)) = uploads (Main.device p).
Proof.
  induction n as [|n IH]; simpl Main.frames; [reflexivity|].
  now rewrite updateGrid_uploads.
Qed.

(** After [n] calls the queue holds [n] more operations, all submits. *)
Lemma frames_queue n p :
  exists ops,
    queue (Main.device (frames n p)) = queue (Main.device p) ++ ops
    /\ List.length ops = n
    /\ forallb isSubmit ops = true.
Proof.
  induction n as [|n (ops & Hq & Hlen & Hall)]; simpl Main.frames.
  - exists []. now rewrite app_nil_r.
  - exists (ops ++ [Submit [issued (Main.device (updateGrid (frames n p)))]]).
    rewrite updateGrid_queue, Hq, <- app_assoc. split; [reflexivity|].
    rewrite length_app, forallb_app, Hall, Hlen. simpl. split; [lia | reflexivity].
Qed.

Lemma frames_submitted_length n p :
  List.length (submitted (Main.device (frames n p)))
  = (List.length (submitted (Main.device p)) + n)%nat.
Proof.
  induction n as [|n IH]; simpl Main.frames.
  - lia.
  - rewrite updateGrid_submitted, length_app, IH. simpl. lia.
Qed.

(** A property of every command buffer a call submits holds of all that
    are submitted after [n] calls. *)
Lemma frames_submitted_Forall (P : GPUCommandBuffer -> Prop) n p :
  Forall P (submitted (Main.device p)) ->
  (forall k, (k < n)%nat -> P (issued (Main.device (updateGrid (frames k p))))) ->
  Forall P (submitted (Main.device (frames n p))).
Proof.
  intros H0. induction n as [|n IH]; intros Hstep; simpl Main.frames.
  - exact H0.
  - rewrite updateGrid_submitted. apply Forall_app. split.
    + apply IH. intros k Hk. apply Hstep. lia.
    + constructor; [|constructor]. apply Hstep. lia.
Qed.

End FrameDriver.

(** ** What the setup leaves behind *)

Section Setup.

Variables cellShaderCode computeShaderCode : string.
Variable GRID_SIZE : Z.
Variable random : nat -> Q.

Local Abbreviation start :=
  (Main.start cellShaderCode computeShaderCode GRID_SIZE random).
Local Abbreviation cellStateArray := (Main.cellStateArray GRID_SIZE random).

Local Abbreviation vertexBufferOf := Main.vertexBufferOf.
Local Abbreviation uniformBufferOf := (Main.uniformBufferOf GRID_SIZE).
Local Abbreviation cellStateA := (Main.cellStateA GRID_SIZE random).
Local Abbreviation cellStateB := (Main.cellStateB GRID_SIZE random).

Lemma start_step h : Main.step (start h) = 0.
Proof. reflexivity. Qed.

Lemma start_vertexBuffer h :
  Main.vertexBuffer (Main.globals (start h)) = vertexBufferOf h.
Proof. reflexivity. Qed.

Lemma start_uniformBuffer h :
  Main.uniformBuffer (Main.globals (start h)) = uniformBufferOf h.
Proof. reflexivity. Qed.

Lemma start_cellStateStorage h :
  Main.cellStateStorage (Main.globals (start h)) = [cellStateA h; cellStateB h].
Proof. reflexivity. Qed.

Lemma start_bindGroups h :
  exists hA hB,
    Main.bindGroups (Main.globals (start h)) =
    [ {| bg_handle := hA;
         bg_label := "Cell renderer bind group A";
         bg_layout := Main.bindGroupLayout (Main.globals (start h));
         bg_entries :=
           [ {| binding := 0; resource := uniformBufferOf h |};
             {| binding := 1; resource := cellStateA h |};
             {| binding := 2; resource := cellStateB h |} ] |};
      {| bg_handle := hB;
         bg_label := "Cell renderer bind group B";
         bg_layout := Main.bindGroupLayout (Main.globals (start h));
         bg_entries :=
           [ {| binding := 0; resource := uniformBufferOf h |};
             {| binding := 1; resource := cellStateB h |};
             {| binding := 2; resource := cellStateA h |} ] |} ]
    /\ hA <> hB.
Proof. do 2 eexists. split; [reflexivity | simpl; lia]. Qed.

Lemma start_queue h :
  queue (Main.device (start h)) =
  queue (Bootstrap.device h) ++
  [ WriteBuffer (cellStateA h) 0 cellStateArray;
    WriteBuffer (vertexBufferOf h) 0 Main.vertices;
    WriteBuffer (uniformBufferOf h) 0 (Main.uniformArray GRID_SIZE) ].
Proof.
  destruct h as [ad [nh q] ctx fmt]. cbn. now rewrite <- !app_assoc.
Qed.

Lemma cellState_distinct h : sameBuffer (cellStateA h) (cellStateB h) = false.
Proof. unfold sameBuffer. simpl buf_handle. apply Nat.eqb_neq. lia. Qed.

End Setup.

(** ** The seeding loop *)

Section Seeding.

Variable GRID_SIZE : Z.
Variable random : nat -> Q.

Local Abbreviation seedLoop := (Main.seedLoop random).

Lemma seedCell_gt (x : Q) : (0.6 < x)%Q -> Main.seedCell x = 1.
Proof.
  intros Hx. unfold Main.seedCell, gt.
  destruct (Qle_bool x 0.6) eqn:Hle; [|reflexivity].
  apply Qle_bool_iff in Hle. exfalso. apply (Qlt_not_le _ _ Hx Hle).
Qed.

Lemma seedCell_le (x : Q) : (x <= 0.6)%Q -> Main.seedCell x = 0.
Proof.
  intros Hx. unfold Main.seedCell, gt.
  apply Qle_bool_iff in Hx. now rewrite Hx.
Qed.

Lemma seedCell_cases (x : Q) :
  (0.6 < x)%Q /\ Main.seedCell x = 1 \/ (x <= 0.6)%Q /\ Main.seedCell x = 0.
Proof.
  destruct (Qlt_le_dec 0.6 x) as [H|H].
  - left. split; [exact H | now apply seedCell_gt].
  - right. split; [exact H | now apply seedCell_le].
Qed.

Lemma seedCell_bit (x : Q) : Main.seedCell x = 0 \/ Main.seedCell x = 1.
Proof. destruct (seedCell_cases x) as [[_ H]|[_ H]]; auto. Qed.

Lemma ToUint32_seedCell (x : Q) : ToUint32 (Main.seedCell x) = Main.seedCell x.
Proof. destruct (seedCell_bit x) as [-> | ->]; reflexivity. Qed.

Lemma seedLoop_length n i (cells : list Z) :
  List.length (seedLoop n i cells) = List.length cells.
Proof.
  revert i cells. induction n as [|n IH]; intros i cells; simpl.
  - reflexivity.
  - now rewrite IH, length_insert.
Qed.

(** Loop invariant: indices below [i] are left alone, the [n] indices from
    [i] on receive the seed of their own random draw. *)
Lemma seedLoop_lookup_below n i (cells : list Z) (j : nat) :
  (j < i)%nat -> seedLoop n i cells !! j = cells !! j.
Proof.
  revert i cells. induction n as [|n IH]; intros i cells Hj; simpl.
  - reflexivity.
  - rewrite IH by lia. apply list_lookup_insert_ne. lia.
Qed.

Lemma seedLoop_lookup_seeded n i (cells : list Z) (j : nat) :
  (i + n <= List.length cells)%nat ->
  (i <= j < i + n)%nat ->
  seedLoop n i cells !! j = Some (Main.seedCell (random j)).
Proof.
  revert i cells. induction n as [|n IH]; intros i cells Hlen Hj; simpl.
  - lia.
  - destruct (Nat.eq_dec i j) as [->|Hne].
    + rewrite seedLoop_lookup_below by lia.
      rewrite list_lookup_insert_eq by lia.
      now rewrite ToUint32_seedCell.
    + apply IH; [rewrite length_insert|]; lia.
Qed.

(** The seeded cells, as a list. *)
Lemma cellStateArray_elems :
  exists cells,
    Main.cellStateArray GRID_SIZE random = Uint32Array cells
    /\ List.length cells = Z.to_nat (GRID_SIZE * GRID_SIZE)
    /\ (forall j, (j < Z.to_nat (GRID_SIZE * GRID_SIZE))%nat ->
                  cells !! j = Some (Main.seedCell (random j)))
    /\ Forall (fun v => v = 0 \/ v = 1) cells.
Proof.
  eexists. split; [reflexivity|].
  assert (Hlen : List.length (new_Uint32Array (GRID_SIZE * GRID_SIZE))
                 = Z.to_nat (GRID_SIZE * GRID_SIZE))
    by apply length_replicate.
  assert (Hlook : forall j, (j < Z.to_nat (GRID_SIZE * GRID_SIZE))%nat ->
    seedLoop (List.length (new_Uint32Array (GRID_SIZE * GRID_SIZE))) 0
             (new_Uint32Array (GRID_SIZE * GRID_SIZE)) !! j
    = Some (Main.seedCell (random j))).
  { intros j Hj. apply seedLoop_lookup_seeded; lia. }
  split; [now rewrite seedLoop_length|]. split; [exact Hlook|].
  apply Forall_lookup. intros j v Hv.
  assert (Hj : (j < Z.to_nat (GRID_SIZE * GRID_SIZE))%nat).
  { apply lookup_lt_Some in Hv. now rewrite seedLoop_length, Hlen in Hv. }
  rewrite (Hlook j Hj) in Hv. inversion Hv. apply seedCell_bit.
Qed.

End Seeding.

(** ** Initialization succeeded *)

Lemma bootstrap_inv w h :
  bootstrap w = Ok h ->
  exists gpu ad cv c,
    navigator_gpu w = Some gpu
    /\ requestAdapter gpu = Some ad
    /\ requestDevice_rejection ad = None
    /\ document_querySelector_canvas w = Some cv
    /\ getContext_webgpu cv = Some c
    /\ h = {| Bootstrap.adapter := ad;
              Bootstrap.device := {| next_handle := 0%nat; queue := [] |};
              Bootstrap.context :=
                {| ctx_handle := c;
                   ctx_format := Some (getPreferredCanvasFormat gpu) |};
              Bootstrap.canvasFormat := getPreferredCanvasFormat gpu |}.
Proof.
  unfold bootstrap, requestDevice. intros H.
  destruct (navigator_gpu w) as [gpu|]; [|discriminate].
  destruct (requestAdapter gpu) as [ad|] eqn:Had; [|discriminate].
  destruct (requestDevice_rejection ad) as [reason|] eqn:Hdev; [discriminate|].
  destruct (document_querySelector_canvas w) as [cv|]; [|discriminate].
  destruct (getContext_webgpu cv) as [c|] eqn:Hctx; [|discriminate].
  inversion H. exists gpu, ad, cv, c. repeat split; assumption.
Qed.

Lemma bootstrap_fresh w h :
  bootstrap w = Ok h ->
  next_handle (Bootstrap.device h) = 0%nat /\ queue (Bootstrap.device h) = [].
Proof.
  intros H. apply bootstrap_inv in H as (gpu & ad & cv & c & _ & _ & _ & _ & _ & ->).
  split; reflexivity.
Qed.

Lemma main_inv cs ss N rnd w p :
  Main.main cs ss N rnd w = Ok p ->
  exists h, bootstrap w = Ok h /\ p = Main.start cs ss N rnd h.
Proof.
  unfold Main.main. intros H.
  destruct (bootstrap w) as [h|m]; [|discriminate].
  exists h. split; [reflexivity | now inversion H].
Qed.

Section Alternation.

Variables cellShaderCode computeShaderCode : string.
Variables GRID_SIZE WORKGROUP_SIZE : Z.
Variable random : nat -> Q.

Local Abbreviation main :=
  (Main.main cellShaderCode computeShaderCode GRID_SIZE random).
Local Abbreviation start :=
  (Main.start cellShaderCode computeShaderCode GRID_SIZE random).
Local Abbreviation updateGrid := (Main.updateGrid GRID_SIZE WORKGROUP_SIZE).
Local Abbreviation frames := (Main.frames GRID_SIZE WORKGROUP_SIZE).
Local Abbreviation frame := (Main.frame GRID_SIZE WORKGROUP_SIZE).

Lemma frame_issued p k :
  frame p k = issued (Main.device (updateGrid (frames k p))).
Proof. reflexivity. Qed.

Lemma frame_computeBindGroups p k :
  computeBindGroups (frame p k) =
  [index (Main.bindGroups (Main.globals p))
         (Z.rem (Main.step p + Z.of_nat k) 2)].
Proof.
  rewrite frame_issued, issued_updateGrid, frames_globals, frames_step.
  reflexivity.
Qed.

Lemma frame_renderBindGroups p k :
  renderBindGroups (frame p k) =
  [index (Main.bindGroups (Main.globals p))
         (Z.rem (Main.step p + Z.of_nat k + 1) 2)].
Proof.
  rewrite frame_issued, issued_updateGrid, frames_globals, frames_step.
  reflexivity.
Qed.

(** After a successful start, call [k] reads and writes by the parity of
    [k]. *)
Lemma frame_compute_io h k :
  computeInput (frame (start h) k)
  = Some (if Nat.even k then Main.cellStateA GRID_SIZE random h
          else Main.cellStateB GRID_SIZE random h)
  /\ computeOutput (frame (start h) k)
  = Some (if Nat.even k then Main.cellStateB GRID_SIZE random h
          else Main.cellStateA GRID_SIZE random h).
Proof.
  unfold computeInput, computeOutput.
  rewrite frame_computeBindGroups, start_step, Z.add_0_l, rem2_of_nat.
  destruct (start_bindGroups cellShaderCode computeShaderCode GRID_SIZE random h)
    as (hA & hB & -> & _).
  destruct (Nat.even k); split; reflexivity.
Qed.

End Alternation.

(** Closes a goal whose hypotheses say that a browser value is both there
    and missing, or that a failed run is a successful one. *)
Ltac c8_absurd :=
  repeat match goal with
         | H : _ \/ _ |- _ => destruct H
         | H : _ /\ _ |- _ => destruct H
         | H : exists _, _ |- _ => destruct H
         | H : Some _ = Some _ |- _ => inversion H; subst; clear H
         end;
  congruence.

(** Proves one of the alternatives under which the start fails, from the
    facts about the browser at hand. *)
Ltac c8_alternative := eauto 15.

(** One conjunct of the case analysis of the start: an implication from a
    failure cause, an equivalence between a throw and its causes, or the
    success case on a browser on which the start fails. *)
Ltac c8_finish :=
  first
    [ solve [intros; c8_absurd]
    | solve [intros; split; c8_absurd]
    | solve [split;
             [ intros; first [c8_absurd | c8_alternative]
             | intros; first [c8_absurd | eexists; reflexivity] ]]
    | solve [let H := fresh in intros H; exfalso; apply H; c8_alternative] ].

(** * The claims *)

(** C1 -- ping-pong: after a successful start, the timer's call [k] binds a
    bind group for its compute dispatch whose binding 1 (read-only input)
    and binding 2 (writable output) are the two different cell-state
    buffers, chosen by the parity of the pre-increment [step]; the buffer
    call [k] writes is the buffer call [k+1] reads, and the buffer call [k]
    reads is the buffer call [k+1] writes. *)
Theorem C1_ping_pong
    (cellShaderCode computeShaderCode : string) (GRID_SIZE WORKGROUP_SIZE : Z)
    (random : nat -> Q) (w : Browser) (p : Main.Program) (k : nat) :
  Main.main cellShaderCode computeShaderCode GRID_SIZE random w = Ok p ->
  exists s0 s1,
    Main.cellStateStorage (Main.globals p) = [s0; s1]
    /\ sameBuffer s0 s1 = false
    /\ computeBindGroups (Main.frame GRID_SIZE WORKGROUP_SIZE p k)
       = [index (Main.bindGroups (Main.globals p)) (Z.rem (Z.of_nat k) 2)]
    /\ computeInput (Main.frame GRID_SIZE WORKGROUP_SIZE p k)
       = Some (if Nat.even k then s0 else s1)
    /\ computeOutput (Main.frame GRID_SIZE WORKGROUP_SIZE p k)
       = Some (if Nat.even k then s1 else s0)
    /\ computeOutput (Main.frame GRID_SIZE WORKGROUP_SIZE p k)
       = computeInput (Main.frame GRID_SIZE WORKGROUP_SIZE p (S k))
    /\ computeInput (Main.frame GRID_SIZE WORKGROUP_SIZE p k)
       = computeOutput (Main.frame GRID_SIZE WORKGROUP_SIZE p (S k))
    /\ computeInput (Main.frame GRID_SIZE WORKGROUP_SIZE p k)
       <> computeOutput (Main.frame GRID_SIZE WORKGROUP_SIZE p k).
Proof.
  intros Hmain. apply main_inv in Hmain as (h & _ & ->).
  exists (Main.cellStateA GRID_SIZE random h),
         (Main.cellStateB GRID_SIZE random h).
  pose proof (frame_compute_io cellShaderCode computeShaderCode GRID_SIZE
                WORKGROUP_SIZE random h k) as [Hin Hout].
  pose proof (frame_compute_io cellShaderCode computeShaderCode GRID_SIZE
                WORKGROUP_SIZE random h (S k)) as [Hin' Hout'].
  rewrite Nat.even_succ, <- Nat.negb_even in Hin', Hout'.
  split; [apply start_cellStateStorage|].
  split; [apply cellState_distinct|].
  split; [rewrite frame_computeBindGroups, start_step; reflexivity|].
  rewrite Hin, Hout, Hin', Hout'.
  repeat split; try (destruct (Nat.even k); reflexivity).
  destruct (Nat.even k); intros Heq; inversion Heq; lia.
Qed.

(** C2 -- in one call of [updateGrid] entered with step counter [s], the
    compute pass binds [bindGroups[s % 2]], the counter becomes [s + 1], the
    render pass (recorded after the compute pass) binds
    [bindGroups[(s + 1) % 2]], and the two indices differ. *)
Theorem C2_bind_group_indices (GRID_SIZE WORKGROUP_SIZE : Z) (p : Main.Program) :
  let s := Main.step p in
  let cb := issued (Main.device (Main.updateGrid GRID_SIZE WORKGROUP_SIZE p)) in
  computeBindGroups cb = [index (Main.bindGroups (Main.globals p)) (Z.rem s 2)]
  /\ Main.step (Main.updateGrid GRID_SIZE WORKGROUP_SIZE p) = s + 1
  /\ renderBindGroups cb
     = [index (Main.bindGroups (Main.globals p)) (Z.rem (s + 1) 2)]
  /\ Z.rem s 2 <> Z.rem (s + 1) 2
  /\ exists before between after,
       cb = before
            ++ [ComputeSetBindGroup 0
                  (index (Main.bindGroups (Main.globals p)) (Z.rem s 2))]
            ++ between
            ++ [RenderSetBindGroup 0
                  (index (Main.bindGroups (Main.globals p)) (Z.rem (s + 1) 2))]
            ++ after
       /\ forallb isComputeCommand before = true
       /\ existsb isComputeCommand after = false.
Proof.
  cbv zeta. rewrite issued_updateGrid.
  split; [reflexivity|]. split; [reflexivity|]. split; [reflexivity|].
  split; [apply rem2_succ|].
  eexists [_; _], [_; _; _; _], [_; _; _].
  split; [reflexivity|]. split; reflexivity.
Qed.

(** C7 -- the step counter is 0 after a successful start, every call of
    [updateGrid] adds exactly one to it, so after [n] calls it is [n]; it
    grows strictly with the number of calls and never returns to 0; and a
    call's bind groups depend on the counter through its parity alone:
    compute takes [bindGroups] at the parity of [n], render at the other
    one, and two calls of equal parity record the same command buffer. *)
Theorem C7_step_counter
    (cellShaderCode computeShaderCode : string) (GRID_SIZE WORKGROUP_SIZE : Z)
    (random : nat -> Q) (w : Browser) (p : Main.Program) (n m : nat) :
  Main.main cellShaderCode computeShaderCode GRID_SIZE random w = Ok p ->
  Main.step p = 0
  /\ Main.step (Main.frames GRID_SIZE WORKGROUP_SIZE n p) = Z.of_nat n
  /\ Main.step (Main.updateGrid GRID_SIZE WORKGROUP_SIZE
                  (Main.frames GRID_SIZE WORKGROUP_SIZE n p))
     = Main.step (Main.frames GRID_SIZE WORKGROUP_SIZE n p) + 1
  /\ ((n < m)%nat ->
      Main.step (Main.frames GRID_SIZE WORKGROUP_SIZE n p)
      < Main.step (Main.frames GRID_SIZE WORKGROUP_SIZE m p))
  /\ ((0 < n)%nat -> Main.step (Main.frames GRID_SIZE WORKGROUP_SIZE n p) <> 0)
  /\ computeBindGroups (Main.frame GRID_SIZE WORKGROUP_SIZE p n)
     = [Main.bindGroups (Main.globals p) !! (if Nat.even n then 0 else 1)%nat]
  /\ renderBindGroups (Main.frame GRID_SIZE WORKGROUP_SIZE p n)
     = [Main.bindGroups (Main.globals p) !! (if Nat.even n then 1 else 0)%nat]
  /\ (Nat.even n = Nat.even m ->
      Main.frame GRID_SIZE WORKGROUP_SIZE p n
      = Main.frame GRID_SIZE WORKGROUP_SIZE p m).
Proof.
  intros Hmain. apply main_inv in Hmain as (h & _ & ->).
  rewrite !frames_step, start_step, !Z.add_0_l.
  split; [reflexivity|]. split; [reflexivity|].
  split; [now rewrite updateGrid_step, frames_step, start_step|].
  split; [lia|]. split; [lia|].
  rewrite frame_computeBindGroups, frame_renderBindGroups, start_step, !Z.add_0_l.
  replace (Z.of_nat n + 1) with (Z.of_nat (S n)) by lia.
  rewrite !rem2_of_nat, Nat.even_succ, <- Nat.negb_even.
  split; [now destruct (Nat.even n)|]. split; [now destruct (Nat.even n)|].
  intros Hpar. rewrite !frame_issued, !issued_updateGrid, !frames_globals,
    !frames_step, start_step, !Z.add_0_l.
  replace (Z.of_nat n + 1) with (Z.of_nat (S n)) by lia.
  replace (Z.of_nat m + 1) with (Z.of_nat (S m)) by lia.
  rewrite !rem2_of_nat, !Nat.even_succ, <- !Nat.negb_even, Hpar. reflexivity.
Qed.

(** C10 -- the two bind groups use the same bind group layout (the one the
    program created) and bind the same uniform buffer at binding 0; group A
    has the cell-state buffers (A, B) at bindings (1, 2), group B has them
    exchanged; the bindings are otherwise the same, and the two buffers are
    different objects. *)
Theorem C10_bind_group_pair
    (cellShaderCode computeShaderCode : string) (GRID_SIZE : Z)
    (random : nat -> Q) (w : Browser) (p : Main.Program) :
  Main.main cellShaderCode computeShaderCode GRID_SIZE random w = Ok p ->
  exists A B s0 s1,
    Main.bindGroups (Main.globals p) = [A; B]
    /\ Main.cellStateStorage (Main.globals p) = [s0; s1]
    /\ sameBuffer s0 s1 = false
    /\ bg_layout A = Main.bindGroupLayout (Main.globals p)
    /\ bg_layout B = Main.bindGroupLayout (Main.globals p)
    /\ bg_entries A =
       [ {| binding := 0; resource := Main.uniformBuffer (Main.globals p) |};
         {| binding := 1; resource := s0 |};
         {| binding := 2; resource := s1 |} ]
    /\ bg_entries B =
       [ {| binding := 0; resource := Main.uniformBuffer (Main.globals p) |};
         {| binding := 1; resource := s1 |};
         {| binding := 2; resource := s0 |} ]
    /\ bound 0 A = bound 0 B
    /\ exchanged A B.
Proof.
  intros Hmain. apply main_inv in Hmain as (h & _ & ->).
  destruct (start_bindGroups cellShaderCode computeShaderCode GRID_SIZE random h)
    as (hA & hB & HAB & _).
  do 2 eexists.
  exists (Main.cellStateA GRID_SIZE random h),
         (Main.cellStateB GRID_SIZE random h).
  split; [exact HAB|].
  split; [apply start_cellStateStorage|].
  split; [apply cellState_distinct|].
  repeat split; reflexivity.
Qed.

(** C3 -- for every grid side length and every positive tile size, a call
    of [updateGrid] dispatches one square grid of [w] x [w] workgroups,
    where [w] is the ceiling of [GRID_SIZE / WORKGROUP_SIZE]: the least
    count with [w * WORKGROUP_SIZE >= GRID_SIZE]; with the source's 128 and
    8 the dispatch is 16 x 16. *)
Theorem C3_workgroup_count (GRID_SIZE WORKGROUP_SIZE : Z) (p : Main.Program) :
  0 < WORKGROUP_SIZE ->
  exists w,
    dispatches (issued (Main.device (Main.updateGrid GRID_SIZE WORKGROUP_SIZE p)))
    = [(w, w)]
    /\ Spec.isCeilOf GRID_SIZE WORKGROUP_SIZE w
    /\ (forall w', Spec.isCeilOf GRID_SIZE WORKGROUP_SIZE w' -> w' = w)
    /\ w = (GRID_SIZE + WORKGROUP_SIZE - 1) / WORKGROUP_SIZE
    /\ dispatches (issued (Main.device (Reference.updateGrid p))) = [(16, 16)].
Proof.
  intros HT. exists (- ((- GRID_SIZE) / WORKGROUP_SIZE)).
  unfold Reference.updateGrid. rewrite !issued_updateGrid.
  split; [simpl; now rewrite Math_ceil_div|].
  split; [now apply ceil_covers|].
  split.
  { intros w' Hw'. apply (ceil_unique GRID_SIZE WORKGROUP_SIZE); auto.
    now apply ceil_covers. }
  split; [|reflexivity].
  apply (ceil_unique GRID_SIZE WORKGROUP_SIZE); auto using ceil_covers.
  unfold Spec.isCeilOf.
  pose proof (Z.div_mod (GRID_SIZE + WORKGROUP_SIZE - 1) WORKGROUP_SIZE
                ltac:(lia)) as Hdm.
  pose proof (Z.mod_pos_bound (GRID_SIZE + WORKGROUP_SIZE - 1)
                WORKGROUP_SIZE HT) as Hb.
  nia.
Qed.

Lemma renderOnly_inv cs N w q :
  RenderOnly.main cs N w = Ok q ->
  exists h, bootstrap w = Ok h /\ q = RenderOnly.start cs N h.
Proof.
  unfold RenderOnly.main. intros H.
  destruct (bootstrap w) as [h|m]; [|discriminate].
  exists h. split; [reflexivity | now inversion H].
Qed.

(** C4 -- every draw call asks for 6 vertices (the 12 numbers of [vertices]
    over 2 per vertex) and [GRID_SIZE * GRID_SIZE] instances.  In the full
    variant each of the [n] command buffers submitted by [n] timer calls
    holds exactly that one draw, 16384 instances for the source's 128; the
    render-only variant submits a single command buffer with no compute
    command and one render pass, whose bind group has the uniform buffer at
    binding 0 as its only entry, and whose one draw has 1024 instances for
    the source's 32. *)
Theorem C4_draw_calls
    (cellShaderCode computeShaderCode : string)
    (GRID_SIZE WORKGROUP_SIZE GRID_SIZE' : Z) (random : nat -> Q)
    (w : Browser) (p : Main.Program) (q : RenderOnly.Program) (n : nat) :
  Main.main cellShaderCode computeShaderCode GRID_SIZE random w = Ok p ->
  RenderOnly.main cellShaderCode GRID_SIZE' w = Ok q ->
  JS.length Main.vertices = 12
  /\ div (inject_Z (JS.length Main.vertices)) 2 = 6%Q
  /\ Reference.GRID_SIZE * Reference.GRID_SIZE = 16384
  /\ Reference.RENDER_ONLY_GRID_SIZE * Reference.RENDER_ONLY_GRID_SIZE = 1024
  /\ List.length
       (submitted (Main.device (Main.frames GRID_SIZE WORKGROUP_SIZE n p))) = n
  /\ Forall (fun cb => draws cb = [(6%Q, GRID_SIZE * GRID_SIZE)])
       (submitted (Main.device (Main.frames GRID_SIZE WORKGROUP_SIZE n p)))
  /\ exists cb,
       submitted (RenderOnly.device q) = [cb]
       /\ draws cb = [(6%Q, GRID_SIZE' * GRID_SIZE')]
       /\ existsb isComputeCommand cb = false
       /\ List.length
            (List.filter (fun c => match c with
                                   | BeginRenderPass _ => true
                                   | _ => false
                                   end) cb) = 1%nat
       /\ renderBindGroups cb = [Some (RenderOnly.bindGroup q)]
       /\ bg_entries (RenderOnly.bindGroup q)
          = [ {| binding := 0; resource := RenderOnly.uniformBuffer q |} ].
Proof.
  intros Hmain Hrender.
  apply main_inv in Hmain as (h & Hboot & ->).
  apply renderOnly_inv in Hrender as (h' & Hboot' & ->).
  rewrite Hboot in Hboot'. inversion Hboot'. subst h'.
  destruct (bootstrap_fresh w h Hboot) as [Hnh Hq].
  assert (Hsub0 : submitted (Main.device (Main.start cellShaderCode
                    computeShaderCode GRID_SIZE random h)) = []).
  { unfold submitted. rewrite start_queue, Hq. reflexivity. }
  split; [reflexivity|]. split; [reflexivity|].
  split; [reflexivity|]. split; [reflexivity|].
  split; [now rewrite frames_submitted_length, Hsub0|].
  split.
  { apply frames_submitted_Forall.
    - rewrite Hsub0. constructor.
    - intros k _. rewrite issued_updateGrid. reflexivity. }
  destruct h as [ad [nh qu] ctx fmt]. simpl in Hq. subst qu.
  eexists. split; [reflexivity|].
  repeat split; reflexivity.
Qed.

(** C5, as the specification words it, fails: a random value of 0.7 is
    greater than 0.6, and the source sets that cell to 1 (alive), not 0. *)
Lemma C5_claimed_polarity_fails : ~ Spec.seedsAsClaimed Main.seedCell 0.7.
Proof.
  intros [Hdead _].
  assert (H : Main.seedCell 0.7 = 0) by (apply Hdead; reflexivity).
  vm_compute in H. discriminate.
Qed.

(** C5 (amended) -- a cell whose random value is greater than 0.6 is set to
    alive (1) and otherwise to dead (0); so of the values in [0, 1) exactly
    those in the interval (0.6, 1), of length 0.4, give a live cell; and
    cell [j] of the seeded array holds the seed of the j-th random draw. *)
Theorem C5_seeding (GRID_SIZE : Z) (random : nat -> Q) (x : Q) (j : nat) :
  ((0.6 < x)%Q -> Main.seedCell x = 1)
  /\ (~ (0.6 < x)%Q -> Main.seedCell x = 0)
  /\ ((0 <= x)%Q /\ (x < 1)%Q ->
      (Main.seedCell x = 1 <-> (0.6 < x)%Q /\ (x < 1)%Q))
  /\ (1 - 0.6 == 0.4)%Q
  /\ ((j < Z.to_nat (GRID_SIZE * GRID_SIZE))%nat ->
      exists cells,
        Main.cellStateArray GRID_SIZE random = Uint32Array cells
        /\ cells !! j = Some (Main.seedCell (random j))).
Proof.
  split; [apply seedCell_gt|].
  split; [intros H; apply seedCell_le; now apply Qnot_lt_le|].
  split.
  { intros [_ H1]. split.
    - intros Halive. split; [|exact H1].
      destruct (seedCell_cases x) as [[H _]|[_ H]]; [exact H | congruence].
    - intros [H _]. now apply seedCell_gt. }
  split; [reflexivity|].
  intros Hj.
  destruct (cellStateArray_elems GRID_SIZE random) as (cells & Hc & _ & Hl & _).
  exists cells. split; [exact Hc | now apply Hl].
Qed.

(** C6 -- during initialization exactly one upload goes to a cell-state
    storage buffer: the seeded array, to the first of the two; each of its
    [GRID_SIZE * GRID_SIZE] elements is 0 or 1; the second storage buffer, a
    different object, receives no upload. *)
Theorem C6_seed_upload
    (cellShaderCode computeShaderCode : string) (GRID_SIZE : Z)
    (random : nat -> Q) (w : Browser) (p : Main.Program) :
  Main.main cellShaderCode computeShaderCode GRID_SIZE random w = Ok p ->
  exists s0 s1 cells,
    Main.cellStateStorage (Main.globals p) = [s0; s1]
    /\ sameBuffer s0 s1 = false
    /\ Main.cellStateArray GRID_SIZE random = Uint32Array cells
    /\ uploadsTo s0 (Main.device p) = [Uint32Array cells]
    /\ uploadsTo s1 (Main.device p) = []
    /\ List.length cells = Z.to_nat (GRID_SIZE * GRID_SIZE)
    /\ Forall (fun v => v = 0 \/ v = 1) cells.
Proof.
  intros Hmain. apply main_inv in Hmain as (h & Hboot & ->).
  destruct (bootstrap_fresh w h Hboot) as [Hnh Hq].
  destruct (cellStateArray_elems GRID_SIZE random)
    as (cells & Hc & Hlen & _ & Hbits).
  exists (Main.cellStateA GRID_SIZE random h),
         (Main.cellStateB GRID_SIZE random h), cells.
  split; [apply start_cellStateStorage|].
  split; [apply cellState_distinct|].
  split; [exact Hc|].
  unfold uploadsTo, uploads. rewrite start_queue, Hq, <- Hc.
  unfold sameBuffer. simpl. rewrite Hnh. simpl.
  repeat split; auto.
Qed.

(** C9 -- the setup uploads three times (the seeded cells, the vertices,
    the grid uniform) and that is all the host ever writes: [n] calls of
    [updateGrid] add [n] queue operations, every one a submit of GPU
    commands, and leave the uploads, the module's constants and the
    device's objects as they were; only [step] changes, by one per call.
    The queue log has no operation that reads a buffer back. *)
Theorem C9_host_access
    (cellShaderCode computeShaderCode : string) (GRID_SIZE WORKGROUP_SIZE : Z)
    (random : nat -> Q) (w : Browser) (p : Main.Program) (n : nat) :
  Main.main cellShaderCode computeShaderCode GRID_SIZE random w = Ok p ->
  (exists s0 s1,
     Main.cellStateStorage (Main.globals p) = [s0; s1]
     /\ uploads (Main.device p) =
        [ (s0, 0, Main.cellStateArray GRID_SIZE random);
          (Main.vertexBuffer (Main.globals p), 0, Main.vertices);
          (Main.uniformBuffer (Main.globals p), 0,
           Main.uniformArray GRID_SIZE) ])
  /\ uploads (Main.device (Main.frames GRID_SIZE WORKGROUP_SIZE n p))
     = uploads (Main.device p)
  /\ (exists ops,
        queue (Main.device (Main.frames GRID_SIZE WORKGROUP_SIZE n p))
        = queue (Main.device p) ++ ops
        /\ List.length ops = n
        /\ forallb isSubmit ops = true)
  /\ Main.globals (Main.frames GRID_SIZE WORKGROUP_SIZE n p) = Main.globals p
  /\ next_handle (Main.device (Main.frames GRID_SIZE WORKGROUP_SIZE n p))
     = next_handle (Main.device p)
  /\ Main.step (Main.frames GRID_SIZE WORKGROUP_SIZE n p)
     = Main.step p + Z.of_nat n
  /\ Main.updateGrid GRID_SIZE WORKGROUP_SIZE
       (Main.frames GRID_SIZE WORKGROUP_SIZE n p)
     = {| Main.globals := Main.globals p;
          Main.step := Main.step p + Z.of_nat n + 1;
          Main.device :=
            {| next_handle := next_handle (Main.device p);
               queue :=
                 queue (Main.device (Main.frames GRID_SIZE WORKGROUP_SIZE n p))
                 ++ [Submit [Main.frame GRID_SIZE WORKGROUP_SIZE p n]] |} |}.
Proof.
  intros Hmain. apply main_inv in Hmain as (h & Hboot & ->).
  destruct (bootstrap_fresh w h Hboot) as [Hnh Hq].
  split.
  { exists (Main.cellStateA GRID_SIZE random h),
           (Main.cellStateB GRID_SIZE random h).
    split; [apply start_cellStateStorage|].
    unfold uploads. rewrite start_queue, Hq. reflexivity. }
  split; [apply frames_uploads|].
  split; [apply frames_queue|].
  split; [apply frames_globals|].
  split; [apply frames_next_handle|].
  split; [apply frames_step|].
  set (pn := Main.frames GRID_SIZE WORKGROUP_SIZE n _).
  pose proof (updateGrid_queue GRID_SIZE WORKGROUP_SIZE pn) as Hqueue.
  pose proof (updateGrid_next_handle GRID_SIZE WORKGROUP_SIZE pn) as Hhandle.
  pose proof (updateGrid_step GRID_SIZE WORKGROUP_SIZE pn) as Hstep.
  pose proof (updateGrid_globals GRID_SIZE WORKGROUP_SIZE pn) as Hglob.
  destruct (Main.updateGrid GRID_SIZE WORKGROUP_SIZE pn) as [gl st [nh qu]] eqn:E.
  simpl in Hqueue, Hhandle, Hstep, Hglob. subst gl st nh.
  unfold pn at 1 2 3. rewrite frames_globals, frames_step, frames_next_handle.
  f_equal. f_equal. rewrite Hqueue. unfold Main.frame. fold pn.
  change (Main.frames GRID_SIZE WORKGROUP_SIZE (S n) _)
    with (Main.updateGrid GRID_SIZE WORKGROUP_SIZE pn).
  rewrite E. reflexivity.
Qed.

(** C8, as the specification words it, fails: with [navigator.gpu], an
    adapter and the canvas's WebGPU context all there, the module evaluation
    still aborts when [adapter.requestDevice()] rejects. *)
Lemma C8_claimed_exactness_fails :
  ~ Spec.abortsAsClaimed (Main.main "cell" "compute" 4 Sample.random)
      Sample.rejectingDevice.
Proof.
  intros [Honly _].
  destruct Honly as [Hgpu|[(gpu & Hgpu & Had)|Hctx]].
  - eexists. reflexivity.
  - discriminate Hgpu.
  - inversion Hgpu. subst gpu. discriminate Had.
  - specialize (Hctx Sample.canvas eq_refl). discriminate Hctx.
Qed.

(** C8 (amended) -- the module evaluation of either variant throws an
    error with the program's own message exactly when [navigator.gpu] is
    missing, else when no adapter is returned, or, with a device granted
    and the canvas element found, when the canvas gives no WebGPU context.
    It also aborts, with the platform's exception and no message of the
    program's own, when [requestDevice()] rejects and, with a device
    granted, when the page has no canvas element.  In no other case does it
    abort: it then completes with a program, and every call of
    [updateGrid] finds both of its bind groups (no lookup yields
    [undefined]).  A run either throws before any program exists or has the
    whole program: the result type has no third case. *)
Theorem C8_startup_failures
    (cellShaderCode computeShaderCode : string) (GRID_SIZE WORKGROUP_SIZE : Z)
    (random : nat -> Q) (w : Browser) (k : nat) :
  let main := Main.main cellShaderCode computeShaderCode GRID_SIZE random in
  let renderOnly := RenderOnly.main cellShaderCode GRID_SIZE in
  let noGPU := navigator_gpu w = None in
  let noAdapter :=
    exists gpu, navigator_gpu w = Some gpu /\ requestAdapter gpu = None in
  let deviceRejected reason :=
    exists gpu adapter,
      navigator_gpu w = Some gpu /\ requestAdapter gpu = Some adapter
      /\ requestDevice_rejection adapter = Some reason in
  let deviceGranted :=
    exists gpu adapter,
      navigator_gpu w = Some gpu /\ requestAdapter gpu = Some adapter
      /\ requestDevice_rejection adapter = None in
  let noCanvas := deviceGranted /\ document_querySelector_canvas w = None in
  let noContext :=
    deviceGranted
    /\ exists canvas, document_querySelector_canvas w = Some canvas
                      /\ getContext_webgpu canvas = None in
  (noGPU ->
   main w = Throw (Error "WebGPU not supported on this browser.")
   /\ renderOnly w = Throw (Error "WebGPU not supported on this browser."))
  /\ (noAdapter ->
      main w = Throw (Error "No appropriate GPUAdapter found.")
      /\ renderOnly w = Throw (Error "No appropriate GPUAdapter found."))
  /\ (noContext ->
      main w = Throw (Error "Unable to obtain WebGPU context.")
      /\ renderOnly w = Throw (Error "Unable to obtain WebGPU context."))
  /\ (forall reason, deviceRejected reason ->
      main w = Throw (Rejection reason)
      /\ renderOnly w = Throw (Rejection reason))
  /\ (noCanvas -> main w = Throw TypeError /\ renderOnly w = Throw TypeError)
  /\ ((exists m, main w = Throw (Error m)) <-> noGPU \/ noAdapter \/ noContext)
  /\ ((exists m, renderOnly w = Throw (Error m))
      <-> noGPU \/ noAdapter \/ noContext)
  /\ ((exists e, main w = Throw e)
      <-> noGPU \/ noAdapter \/ noContext
          \/ (exists reason, deviceRejected reason) \/ noCanvas)
  /\ ((exists e, renderOnly w = Throw e)
      <-> noGPU \/ noAdapter \/ noContext
          \/ (exists reason, deviceRejected reason) \/ noCanvas)
  /\ (~ (noGPU \/ noAdapter \/ noContext
         \/ (exists reason, deviceRejected reason) \/ noCanvas) ->
      (exists q, renderOnly w = Ok q)
      /\ exists p A B,
           main w = Ok p
           /\ computeBindGroups (Main.frame GRID_SIZE WORKGROUP_SIZE p k)
              = [Some A]
           /\ renderBindGroups (Main.frame GRID_SIZE WORKGROUP_SIZE p k)
              = [Some B]).
Proof.
  cbv zeta. unfold Main.main, RenderOnly.main, bootstrap, requestDevice.
  destruct (navigator_gpu w) as [gpu|] eqn:Hgpu;
    [destruct (requestAdapter gpu) as [ad|] eqn:Had;
     [destruct (requestDevice_rejection ad) as [reason|] eqn:Hdev;
      [|destruct (document_querySelector_canvas w) as [cv|] eqn:Hcv;
        [destruct (getContext_webgpu cv) as [c|] eqn:Hctx|]]|]|].
  all: repeat match goal with |- _ /\ _ => split end.
  all: try solve [c8_finish].
  intros _. split; [eauto|].
  set (h := {| Bootstrap.adapter := ad;
               Bootstrap.device := {| next_handle := 0%nat; queue := [] |};
               Bootstrap.context :=
                 {| ctx_handle := c;
                    ctx_format := Some (getPreferredCanvasFormat gpu) |};
               Bootstrap.canvasFormat := getPreferredCanvasFormat gpu |}).
  destruct (start_bindGroups cellShaderCode computeShaderCode GRID_SIZE random h)
    as (hA & hB & HAB & _).
  exists (Main.start cellShaderCode computeShaderCode GRID_SIZE random h).
  rewrite frame_computeBindGroups, frame_renderBindGroups, start_step, HAB.
  rewrite Z.add_0_l.
  replace (Z.of_nat k + 1) with (Z.of_nat (S k)) by lia.
  rewrite !rem2_of_nat.
  destruct (Nat.even k), (Nat.even (S k)); do 2 eexists;
    (split; [reflexivity|]); split; reflexivity.
Qed.

(** * The claims on concrete runs *)

Lemma C1_ping_pong_witness :
  Main.main "cell" "compute" 4 Sample.random Sample.browser = Ok Sample.program
  /\ computeOutput (Main.frame 4 3 Sample.program 0)
     = computeInput (Main.frame 4 3 Sample.program 1)
  /\ computeInput (Main.frame 4 3 Sample.program 0)
     = computeOutput (Main.frame 4 3 Sample.program 1).
Proof.
  split; [reflexivity|].
  destruct (C1_ping_pong "cell" "compute" 4 3 Sample.random Sample.browser
              Sample.program 0 eq_refl)
    as (s0 & s1 & _ & _ & _ & _ & _ & Hout & Hin & _).
  split; [exact Hout | exact Hin].
Defined.

Lemma C3_workgroup_count_witness :
  0 < 8
  /\ exists w,
       dispatches (issued (Main.device (Main.updateGrid 128 8 Sample.reference)))
       = [(w, w)]
       /\ Spec.isCeilOf 128 8 w.
Proof.
  split; [reflexivity|].
  destruct (C3_workgroup_count 128 8 Sample.reference eq_refl)
    as (w & Hd & Hc & _).
  exists w. split; [exact Hd | exact Hc].
Defined.

Lemma C4_draw_calls_witness :
  Main.main "cell" "compute" Reference.GRID_SIZE Sample.random Sample.browser
  = Ok Sample.reference
  /\ RenderOnly.main "cell" Reference.RENDER_ONLY_GRID_SIZE Sample.browser
     = Ok Sample.renderOnly
  /\ Forall (fun cb => draws cb = [(6%Q, 128 * 128)])
       (submitted (Main.device (Main.frames 128 8 2 Sample.reference)))
  /\ exists cb,
       submitted (RenderOnly.device Sample.renderOnly) = [cb]
       /\ draws cb = [(6%Q, 32 * 32)].
Proof.
  split; [reflexivity|]. split; [reflexivity|].
  destruct (C4_draw_calls "cell" "compute" 128 8 32 Sample.random
              Sample.browser Sample.reference Sample.renderOnly 2
              eq_refl eq_refl)
    as (_ & _ & _ & _ & _ & Hall & cb & Hcb & Hdraw & _).
  split; [exact Hall|]. exists cb. split; [exact Hcb | exact Hdraw].
Defined.

Lemma C5_seeding_witness :
  (0.6 < 0.75)%Q /\ Main.seedCell 0.75 = 1
  /\ ~ (0.6 < 0.25)%Q /\ Main.seedCell 0.25 = 0
  /\ (1 < Z.to_nat (4 * 4))%nat
  /\ exists cells,
       Main.cellStateArray 4 Sample.random = Uint32Array cells
       /\ cells !! 1%nat = Some (Main.seedCell (Sample.random 1)).
Proof.
  destruct (C5_seeding 4 Sample.random 0.75 1) as (Halive & _ & _ & _ & Hcell).
  destruct (C5_seeding 4 Sample.random 0.25 1) as (_ & Hdead & _).
  assert (Hgt : (0.6 < 0.75)%Q) by reflexivity.
  assert (Hle : ~ (0.6 < 0.25)%Q) by (intros H; discriminate H).
  assert (Hj : (1 < Z.to_nat (4 * 4))%nat) by (simpl; lia).
  split; [exact Hgt|]. split; [exact (Halive Hgt)|].
  split; [exact Hle|]. split; [exact (Hdead Hle)|].
  split; [exact Hj | exact (Hcell Hj)].
Defined.

Lemma C6_seed_upload_witness :
  Main.main "cell" "compute" 4 Sample.random Sample.browser = Ok Sample.program
  /\ exists s0 s1 cells,
       Main.cellStateStorage (Main.globals Sample.program) = [s0; s1]
       /\ uploadsTo s0 (Main.device Sample.program) = [Uint32Array cells]
       /\ uploadsTo s1 (Main.device Sample.program) = []
       /\ Forall (fun v => v = 0 \/ v = 1) cells.
Proof.
  split; [reflexivity|].
  destruct (C6_seed_upload "cell" "compute" 4 Sample.random Sample.browser
              Sample.program eq_refl)
    as (s0 & s1 & cells & Hs & _ & _ & H0 & H1 & _ & Hbits).
  exists s0, s1, cells. repeat split; assumption.
Defined.

Lemma C7_step_counter_witness :
  Main.main "cell" "compute" 4 Sample.random Sample.browser = Ok Sample.program
  /\ Main.step (Main.frames 4 3 1 Sample.program) = 1
  /\ Main.step (Main.frames 4 3 1 Sample.program)
     < Main.step (Main.frames 4 3 3 Sample.program)
  /\ Main.step (Main.frames 4 3 1 Sample.program) <> 0
  /\ Main.frame 4 3 Sample.program 1 = Main.frame 4 3 Sample.program 3.
Proof.
  split; [reflexivity|].
  destruct (C7_step_counter "cell" "compute" 4 3 Sample.random Sample.browser
              Sample.program 1 3 eq_refl)
    as (_ & Hn & _ & Hlt & Hnz & _ & _ & Hpar).
  split; [exact Hn|].
  split; [apply Hlt; lia|].
  split; [apply Hnz; lia|].
  apply Hpar. reflexivity.
Defined.

Lemma C8_startup_failures_witness :
  Main.main "cell" "compute" 4 Sample.random Sample.noGPU
  = Throw (Error "WebGPU not supported on this browser.")
  /\ Main.main "cell" "compute" 4 Sample.random Sample.noAdapter
     = Throw (Error "No appropriate GPUAdapter found.")
  /\ Main.main "cell" "compute" 4 Sample.random Sample.noContext
     = Throw (Error "Unable to obtain WebGPU context.")
  /\ Main.main "cell" "compute" 4 Sample.random Sample.rejectingDevice
     = Throw (Rejection "OperationError")
  /\ Main.main "cell" "compute" 4 Sample.random Sample.noCanvas
     = Throw TypeError
  /\ exists p, Main.main "cell" "compute" 4 Sample.random Sample.browser = Ok p.
Proof.
  destruct (C8_startup_failures "cell" "compute" 4 3 Sample.random
              Sample.noGPU 0) as (H1 & _).
  destruct (C8_startup_failures "cell" "compute" 4 3 Sample.random
              Sample.noAdapter 0) as (_ & H2 & _).
  destruct (C8_startup_failures "cell" "compute" 4 3 Sample.random
              Sample.noContext 0) as (_ & _ & H3 & _).
  destruct (C8_startup_failures "cell" "compute" 4 3 Sample.random
              Sample.rejectingDevice 0) as (_ & _ & _ & H4 & _).
  destruct (C8_startup_failures "cell" "compute" 4 3 Sample.random
              Sample.noCanvas 0) as (_ & _ & _ & _ & H5 & _).
  destruct (C8_startup_failures "cell" "compute" 4 3 Sample.random
              Sample.browser 0) as (_ & _ & _ & _ & _ & _ & _ & _ & _ & H6).
  split; [apply H1; reflexivity|].
  split; [apply H2; eexists; split; reflexivity|].
  split.
  { apply H3. split.
    - do 2 eexists. repeat split; reflexivity.
    - eexists. split; reflexivity. }
  split; [apply H4; do 2 eexists; repeat split; reflexivity|].
  split.
  { apply H5. split; [|reflexivity].
    do 2 eexists. repeat split; reflexivity. }
  destruct H6 as (_ & p & _ & _ & Hp & _).
  - intros [H|[(gpu & Hg & Ha)|[((gpu & ad & Hg & Ha & Hr) & cv & Hc & Hx)
           |[(reason & gpu & ad & Hg & Ha & Hr)|(_ & Hc)]]]].
    + discriminate H.
    + inversion Hg. subst gpu. discriminate Ha.
    + inversion Hc. subst cv. discriminate Hx.
    + inversion Hg. subst gpu. inversion Ha. subst ad. discriminate Hr.
    + discriminate Hc.
  - exists p. exact Hp.
Defined.

Lemma C9_host_access_witness :
  Main.main "cell" "compute" 4 Sample.random Sample.browser = Ok Sample.program
  /\ uploads (Main.device (Main.frames 4 3 5 Sample.program))
     = uploads (Main.device Sample.program)
  /\ Main.globals (Main.frames 4 3 5 Sample.program)
     = Main.globals Sample.program
  /\ Main.step (Main.frames 4 3 5 Sample.program) = 5.
Proof.
  split; [reflexivity|].
  destruct (C9_host_access "cell" "compute" 4 3 Sample.random Sample.browser
              Sample.program 5 eq_refl)
    as (_ & Hup & _ & Hgl & _ & Hst & _).
  split; [exact Hup|]. split; [exact Hgl | exact Hst].
Defined.

Lemma C10_bind_group_pair_witness :
  Main.main "cell" "compute" 4 Sample.random Sample.browser = Ok Sample.program
  /\ exists A B,
       Main.bindGroups (Main.globals Sample.program) = [A; B]
       /\ bg_layout A = bg_layout B
       /\ bound 0 A = bound 0 B
       /\ exchanged A B.
Proof.
  split; [reflexivity|].
  destruct (C10_bind_group_pair "cell" "compute" 4 Sample.random Sample.browser
              Sample.program eq_refl)
    as (A & B & s0 & s1 & HAB & _ & _ & HlA & HlB & _ & _ & Hu & Hex).
  exists A, B. split; [exact HAB|]. split; [congruence|].
  split; [exact Hu | exact Hex].
Defined.

(** * Further properties of the setup and of the frame driver *)

Import Validate.

Section SetupFacts.

Variables cellShaderCode computeShaderCode : string.
Variable GRID_SIZE : Z.
Variable random : nat -> Q.

Local Abbreviation start :=
  (Main.start cellShaderCode computeShaderCode GRID_SIZE random).
Local Abbreviation cellStateA := (Main.cellStateA GRID_SIZE random).
Local Abbreviation cellStateB := (Main.cellStateB GRID_SIZE random).

Lemma cellStateArray_byteLength :
  byteLength (Main.cellStateArray GRID_SIZE random)
  = 4 * (GRID_SIZE * GRID_SIZE).
Proof.
  destruct (cellStateArray_elems GRID_SIZE random) as (cells & -> & Hlen & _).
  unfold byteLength, JS.length. rewrite Hlen.
  rewrite Z2Nat.id by nia. reflexivity.
Qed.

(** On a device with nothing queued, the uploads after the setup. *)
Lemma start_uploads h :
  queue (Bootstrap.device h) = [] ->
  uploads (Main.device (start h)) =
  [ (cellStateA h, 0, Main.cellStateArray GRID_SIZE random);
    (Main.vertexBufferOf h, 0, Main.vertices);
    (Main.uniformBufferOf GRID_SIZE h, 0, Main.uniformArray GRID_SIZE) ].
Proof. intros Hq. unfold uploads. rewrite start_queue, Hq. reflexivity. Qed.

Lemma start_submitted h :
  queue (Bootstrap.device h) = [] -> submitted (Main.device (start h)) = [].
Proof. intros Hq. unfold submitted. rewrite start_queue, Hq. reflexivity. Qed.

Lemma start_uploadsTo h :
  queue (Bootstrap.device h) = [] ->
  uploadsTo (cellStateA h) (Main.device (start h))
  = [Main.cellStateArray GRID_SIZE random]
  /\ uploadsTo (cellStateB h) (Main.device (start h)) = []
  /\ uploadsTo (Main.vertexBufferOf h) (Main.device (start h))
     = [Main.vertices]
  /\ uploadsTo (Main.uniformBufferOf GRID_SIZE h) (Main.device (start h))
     = [Main.uniformArray GRID_SIZE].
Proof.
  intros Hq. unfold uploadsTo. rewrite (start_uploads h Hq).
  unfold sameBuffer. cbn [flat_map buf_handle Main.cellStateA Main.cellStateB
                          Main.vertexBufferOf Main.uniformBufferOf].
  set (n := next_handle (Bootstrap.device h)).
  rewrite !Nat.eqb_refl.
  replace (Nat.eqb n (S (S n))) with false by (symmetry; apply Nat.eqb_neq; lia).
  replace (Nat.eqb (S n) (S (S n))) with false by (symmetry; apply Nat.eqb_neq; lia).
  replace (Nat.eqb (S (S n)) (S (S (S n)))) with false by (symmetry; apply Nat.eqb_neq; lia).
  replace (Nat.eqb n (S (S (S n)))) with false by (symmetry; apply Nat.eqb_neq; lia).
  replace (Nat.eqb (S n) (S (S (S n)))) with false by (symmetry; apply Nat.eqb_neq; lia).
  replace (Nat.eqb (S (S n)) n) with false by (symmetry; apply Nat.eqb_neq; lia).
  replace (Nat.eqb (S n) n) with false by (symmetry; apply Nat.eqb_neq; lia).
  replace (Nat.eqb (S (S n)) (S n)) with false by (symmetry; apply Nat.eqb_neq; lia).
  replace (Nat.eqb n (S n)) with false by (symmetry; apply Nat.eqb_neq; lia).
  repeat split; reflexivity.
Qed.

Lemma start_uploads_fill h :
  queue (Bootstrap.device h) = [] ->
  forallb uploadFills (uploads (Main.device (start h))) = true.
Proof.
  intros Hq. rewrite (start_uploads h Hq).
  cbn [forallb uploadFills]. unfold hasUsage.
  cbn [buf_usage buf_size Main.cellStateA Main.vertexBufferOf
       Main.uniformBufferOf existsb sameUsage orb andb].
  rewrite !Z.eqb_refl. reflexivity.
Qed.

End SetupFacts.

(** X1 -- the four buffers of the full variant are 48 bytes (vertices),
    8 bytes (grid uniform) and [4 * GRID_SIZE * GRID_SIZE] bytes (each cell
    state buffer); every upload the host ever makes goes to a [COPY_DST]
    buffer at offset 0 and is exactly as long as that buffer; the vertex,
    the uniform and the first cell-state buffer each receive one upload,
    the second cell-state buffer none, however many frames have run. *)
Theorem X1_uploads_fill_buffers
    (cellShaderCode computeShaderCode : string) (GRID_SIZE WORKGROUP_SIZE : Z)
    (random : nat -> Q) (w : Browser) (p : Main.Program) (n : nat) :
  Main.main cellShaderCode computeShaderCode GRID_SIZE random w = Ok p ->
  let d := Main.device (Main.frames GRID_SIZE WORKGROUP_SIZE n p) in
  exists s0 s1,
    Main.cellStateStorage (Main.globals p) = [s0; s1]
    /\ buf_size (Main.vertexBuffer (Main.globals p)) = 48
    /\ buf_size (Main.uniformBuffer (Main.globals p)) = 8
    /\ buf_size s0 = 4 * (GRID_SIZE * GRID_SIZE)
    /\ buf_size s1 = 4 * (GRID_SIZE * GRID_SIZE)
    /\ forallb uploadFills (uploads d) = true
    /\ uploadsTo (Main.vertexBuffer (Main.globals p)) d = [Main.vertices]
    /\ uploadsTo (Main.uniformBuffer (Main.globals p)) d
       = [Main.uniformArray GRID_SIZE]
    /\ uploadsTo s0 d = [Main.cellStateArray GRID_SIZE random]
    /\ uploadsTo s1 d = [].
Proof.
  intros Hmain. apply main_inv in Hmain as (h & Hboot & ->).
  destruct (bootstrap_fresh w h Hboot) as [_ Hq].
  destruct (start_uploadsTo cellShaderCode computeShaderCode GRID_SIZE random
              h Hq) as (HA & HB & HV & HU).
  cbv zeta. unfold uploadsTo in *. rewrite frames_uploads.
  exists (Main.cellStateA GRID_SIZE random h),
         (Main.cellStateB GRID_SIZE random h).
  split; [apply start_cellStateStorage|].
  split; [reflexivity|]. split; [reflexivity|].
  split; [apply cellStateArray_byteLength|].
  split; [apply cellStateArray_byteLength|].
  split; [now apply start_uploads_fill|].
  rewrite start_vertexBuffer, start_uniformBuffer.
  repeat split; assumption.
Qed.

Lemma start_renderOnly cs N h :
  next_handle (Bootstrap.device h) = 0%nat ->
  queue (Bootstrap.device h) = [] ->
  exists vb ub sm rp bg,
    RenderOnly.start cs N h =
    {| RenderOnly.vertexBuffer := vb; RenderOnly.uniformBuffer := ub;
       RenderOnly.cellPipeline := rp; RenderOnly.bindGroup := bg;
       RenderOnly.device :=
         {| next_handle := 5%nat;
            queue :=
              [ WriteBuffer vb 0 RenderOnly.vertices;
                WriteBuffer ub 0 (RenderOnly.uniformArray N);
                Submit
                  [[ BeginRenderPass
                       [ {| view := Bootstrap.context h;
                            loadOp := "clear";
                            clearValue := {| r := 0; g := 0; b := 0.4; a := 1 |};
                            storeOp := "store" |} ];
                     RenderSetPipeline rp;
                     SetVertexBuffer 0 vb;
                     RenderSetBindGroup 0 (Some bg);
                     Draw 6 (N * N);
                     RenderEnd ]] ] |} |}
    /\ vb = {| buf_handle := 0%nat; buf_label := "Cell vertices";
               buf_size := 48; buf_usage := [VERTEX; COPY_DST] |}
    /\ ub = {| buf_handle := 1%nat; buf_label := "Grid Uniforms";
               buf_size := 8; buf_usage := [UNIFORM; COPY_DST] |}
    /\ sm = {| sm_handle := 2%nat; sm_label := "Cell shader"; sm_code := cs |}
    /\ rp = {| rp_handle := 3%nat; rp_label := "Cell pipeline";
               rp_layout := AutoLayout;
               rp_vertex_module := sm; rp_vertex_entryPoint := "vertexMain";
               rp_vertex_buffers := [RenderOnly.vertexBufferLayout];
               rp_fragment_module := sm;
               rp_fragment_entryPoint := "fragmentMain";
               rp_fragment_targets := [Bootstrap.canvasFormat h] |}
    /\ bg = {| bg_handle := 4%nat; bg_label := "Cell renderer bind group";
               bg_layout := getBindGroupLayout rp 0;
               bg_entries := [ {| binding := 0; resource := ub |} ] |}.
Proof.
  destruct h as [ad [nh qu] ctx fmt]. simpl. intros -> ->.
  do 5 eexists. split; [reflexivity|]. repeat split; reflexivity.
Qed.

(** X2 -- the render-only variant creates a 48-byte vertex buffer and an
    8-byte uniform buffer, two different objects, neither of them a storage
    buffer; it uploads exactly twice, the vertices and then the grid
    uniform, each to a [COPY_DST] buffer at offset 0 and exactly as long as
    the buffer. *)
Theorem X2_renderOnly_uploads
    (cellShaderCode : string) (GRID_SIZE : Z) (w : Browser)
    (q : RenderOnly.Program) :
  RenderOnly.main cellShaderCode GRID_SIZE w = Ok q ->
  uploads (RenderOnly.device q)
  = [ (RenderOnly.vertexBuffer q, 0, RenderOnly.vertices);
      (RenderOnly.uniformBuffer q, 0, RenderOnly.uniformArray GRID_SIZE) ]
  /\ forallb uploadFills (uploads (RenderOnly.device q)) = true
  /\ buf_size (RenderOnly.vertexBuffer q) = 48
  /\ buf_size (RenderOnly.uniformBuffer q) = 8
  /\ sameBuffer (RenderOnly.vertexBuffer q) (RenderOnly.uniformBuffer q) = false
  /\ hasUsage STORAGE (RenderOnly.vertexBuffer q) = false
  /\ hasUsage STORAGE (RenderOnly.uniformBuffer q) = false.
Proof.
  intros Hmain. apply renderOnly_inv in Hmain as (h & Hboot & ->).
  destruct (bootstrap_fresh w h Hboot) as [Hnh Hq].
  destruct (start_renderOnly cellShaderCode GRID_SIZE h Hnh Hq)
    as (vb & ub & sm & rp & bg & -> & -> & -> & _).
  repeat split; reflexivity.
Qed.

Section FrameFacts.

Variables cellShaderCode computeShaderCode : string.
Variables GRID_SIZE WORKGROUP_SIZE : Z.
Variable random : nat -> Q.

Local Abbreviation start :=
  (Main.start cellShaderCode computeShaderCode GRID_SIZE random).
Local Abbreviation frames := (Main.frames GRID_SIZE WORKGROUP_SIZE).
Local Abbreviation frame := (Main.frame GRID_SIZE WORKGROUP_SIZE).

(** The layouts, pipelines and context the setup leaves in the constants. *)
Lemma start_pipelines h :
  exists hl hp,
    Main.bindGroupLayout (Main.globals (start h)) =
    ExplicitLayout hl "Cell Bind Group Layout"
      [ {| le_binding := 0;
           le_visibility := [STAGE_VERTEX; STAGE_COMPUTE; STAGE_FRAGMENT];
           le_buffer := uniform |};
        {| le_binding := 1;
           le_visibility := [STAGE_VERTEX; STAGE_COMPUTE];
           le_buffer := read_only_storage |};
        {| le_binding := 2;
           le_visibility := [STAGE_COMPUTE];
           le_buffer := storage |} ]
    /\ Main.pipelineLayout (Main.globals (start h)) =
       PipelineLayout hp "Cell Pipeline Layout"
         [Main.bindGroupLayout (Main.globals (start h))]
    /\ rp_layout (Main.cellPipeline (Main.globals (start h)))
       = Main.pipelineLayout (Main.globals (start h))
    /\ cp_layout (Main.simulationPipeline (Main.globals (start h)))
       = Main.pipelineLayout (Main.globals (start h))
    /\ rp_vertex_buffers (Main.cellPipeline (Main.globals (start h)))
       = [Main.vertexBufferLayout]
    /\ rp_fragment_targets (Main.cellPipeline (Main.globals (start h)))
       = [Bootstrap.canvasFormat h]
    /\ Main.context (Main.globals (start h)) = Bootstrap.context h.
Proof. do 2 eexists. repeat split; reflexivity. Qed.

(** The bind groups call [k] sets, after a successful start. *)
Lemma frame_bindGroups h k :
  exists A B,
    Main.bindGroups (Main.globals (start h)) = [A; B]
    /\ computeBindings (frame (start h) k)
       = [(0, Some (if Nat.even k then A else B))]
    /\ renderBindings (frame (start h) k)
       = [(0, Some (if Nat.even k then B else A))]
    /\ computeBindGroups (frame (start h) k)
       = [Some (if Nat.even k then A else B)]
    /\ renderBindGroups (frame (start h) k)
       = [Some (if Nat.even k then B else A)].
Proof.
  destruct (start_bindGroups cellShaderCode computeShaderCode GRID_SIZE random h)
    as (hA & hB & HAB & _).
  do 2 eexists. split; [exact HAB|].
  rewrite frame_issued, issued_updateGrid, frames_globals, frames_step,
    start_step, HAB, Z.add_0_l.
  replace (Z.of_nat k + 1) with (Z.of_nat (S k)) by lia.
  cbn [computeBindings renderBindings computeBindGroups renderBindGroups
       flat_map app].
  rewrite !rem2_of_nat, Nat.even_succ, <- Nat.negb_even.
  destruct (Nat.even k); repeat split; reflexivity.
Qed.

Lemma frame_renderInput h k :
  renderInput (frame (start h) k)
  = Some (if Nat.even k then Main.cellStateB GRID_SIZE random h
          else Main.cellStateA GRID_SIZE random h).
Proof.
  unfold renderInput.
  rewrite frame_renderBindGroups, start_step, Z.add_0_l.
  replace (Z.of_nat k + 1) with (Z.of_nat (S k)) by lia.
  rewrite rem2_of_nat, Nat.even_succ, <- Nat.negb_even.
  destruct (start_bindGroups cellShaderCode computeShaderCode GRID_SIZE random h)
    as (hA & hB & -> & _).
  destruct (Nat.even k); reflexivity.
Qed.

End FrameFacts.

(** X3 -- every draw stays inside the vertex buffer: in each command buffer
    of either variant the one vertex buffer is set at slot 0, it was
    created with [VERTEX] usage, the pipeline of the pass has one vertex
    buffer layout, and the draw's vertex count times that layout's stride is
    exactly the buffer's size. *)
Theorem X3_draw_within_vertex_buffer
    (cellShaderCode computeShaderCode : string)
    (GRID_SIZE WORKGROUP_SIZE GRID_SIZE' : Z) (random : nat -> Q)
    (w : Browser) (p : Main.Program) (q : RenderOnly.Program) (k : nat) :
  Main.main cellShaderCode computeShaderCode GRID_SIZE random w = Ok p ->
  RenderOnly.main cellShaderCode GRID_SIZE' w = Ok q ->
  let inBounds (cb : GPUCommandBuffer) :=
    exists vb rp layout v i,
      vertexBuffers cb = [(0, vb)]
      /\ renderPipelines cb = [rp]
      /\ rp_vertex_buffers rp = [layout]
      /\ draws cb = [(v, i)]
      /\ hasUsage VERTEX vb = true
      /\ (v * inject_Z (arrayStride layout) == inject_Z (buf_size vb))%Q in
  inBounds (Main.frame GRID_SIZE WORKGROUP_SIZE p k)
  /\ exists cb, submitted (RenderOnly.device q) = [cb] /\ inBounds cb.
Proof.
  intros Hmain Hrender. cbv zeta.
  apply main_inv in Hmain as (h & Hboot & ->).
  apply renderOnly_inv in Hrender as (h' & Hboot' & ->).
  rewrite Hboot in Hboot'. inversion Hboot'. subst h'.
  destruct (bootstrap_fresh w h Hboot) as [Hnh Hq].
  split.
  - rewrite frame_issued, issued_updateGrid, frames_globals.
    do 5 eexists. split; [reflexivity|]. split; [reflexivity|].
    split; [reflexivity|]. split; [reflexivity|]. split; reflexivity.
  - destruct (start_renderOnly cellShaderCode GRID_SIZE' h Hnh Hq)
      as (vb & ub & sm & rp & bg & -> & -> & -> & -> & -> & ->).
    eexists. split; [reflexivity|].
    do 5 eexists. split; [reflexivity|]. split; [reflexivity|].
    split; [reflexivity|]. split; [reflexivity|]. split; reflexivity.
Qed.

(** X4 -- in every call the render pass reads the cell state the compute
    pass of the same call has just written: binding 1 of the render bind
    group is the buffer at binding 2 of the compute bind group, not the one
    the dispatch read; the dispatch is recorded before the draw; and the
    layout shows the vertex stage bindings 0 and 1 only, the fragment stage
    binding 0 only, so the render pass cannot touch the other buffer. *)
Theorem X4_render_reads_compute_output
    (cellShaderCode computeShaderCode : string) (GRID_SIZE WORKGROUP_SIZE : Z)
    (random : nat -> Q) (w : Browser) (p : Main.Program) (k : nat) :
  Main.main cellShaderCode computeShaderCode GRID_SIZE random w = Ok p ->
  let cb := Main.frame GRID_SIZE WORKGROUP_SIZE p k in
  (exists buf, renderInput cb = Some buf /\ computeOutput cb = Some buf)
  /\ renderInput cb <> computeInput cb
  /\ (exists before after,
        cb = before ++ after
        /\ List.length (dispatches before) = 1%nat /\ draws before = []
        /\ dispatches after = [] /\ List.length (draws after) = 1%nat)
  /\ visibleTo STAGE_VERTEX (Main.bindGroupLayout (Main.globals p)) = [0; 1]
  /\ visibleTo STAGE_FRAGMENT (Main.bindGroupLayout (Main.globals p)) = [0]
  /\ visibleTo STAGE_COMPUTE (Main.bindGroupLayout (Main.globals p)) = [0; 1; 2].
Proof.
  intros Hmain. cbv zeta. apply main_inv in Hmain as (h & _ & ->).
  pose proof (frame_compute_io cellShaderCode computeShaderCode GRID_SIZE
                WORKGROUP_SIZE random h k) as [Hin Hout].
  pose proof (frame_renderInput cellShaderCode computeShaderCode GRID_SIZE
                WORKGROUP_SIZE random h k) as Hrin.
  split; [eexists; split; [exact Hrin | exact Hout]|].
  split.
  { rewrite Hrin, Hin. destruct (Nat.even k); intros H; inversion H; lia. }
  split.
  { rewrite frame_issued, issued_updateGrid.
    eexists [_; _; _; _; _], [_; _; _; _; _; _].
    split; [reflexivity|]. repeat split; reflexivity. }
  repeat split; reflexivity.
Qed.

(** X5 -- the simulation starts from the seed: the first compute dispatch
    reads the storage buffer that received the seeded array and writes the
    one that received nothing, which the first render pass then shows. *)
Theorem X5_first_dispatch_reads_seed
    (cellShaderCode computeShaderCode : string) (GRID_SIZE WORKGROUP_SIZE : Z)
    (random : nat -> Q) (w : Browser) (p : Main.Program) :
  Main.main cellShaderCode computeShaderCode GRID_SIZE random w = Ok p ->
  exists seeded blank,
    computeInput (Main.frame GRID_SIZE WORKGROUP_SIZE p 0) = Some seeded
    /\ computeOutput (Main.frame GRID_SIZE WORKGROUP_SIZE p 0) = Some blank
    /\ renderInput (Main.frame GRID_SIZE WORKGROUP_SIZE p 0) = Some blank
    /\ uploadsTo seeded (Main.device p)
       = [Main.cellStateArray GRID_SIZE random]
    /\ uploadsTo blank (Main.device p) = [].
Proof.
  intros Hmain. apply main_inv in Hmain as (h & Hboot & ->).
  destruct (bootstrap_fresh w h Hboot) as [_ Hq].
  destruct (start_uploadsTo cellShaderCode computeShaderCode GRID_SIZE random
              h Hq) as (HA & HB & _).
  pose proof (frame_compute_io cellShaderCode computeShaderCode GRID_SIZE
                WORKGROUP_SIZE random h 0) as [Hin Hout].
  pose proof (frame_renderInput cellShaderCode computeShaderCode GRID_SIZE
                WORKGROUP_SIZE random h 0) as Hrin.
  do 2 eexists. split; [exact Hin|]. split; [exact Hout|].
  split; [exact Hrin|]. split; [exact HA | exact HB].
Qed.

(** X6 -- both bind groups satisfy the bind group layout they are created
    with: one entry per layout entry, with the same binding numbers 0, 1, 2
    in order; a [UNIFORM] buffer under the uniform entry and [STORAGE]
    buffers under the read-only-storage and the storage entry. *)
Theorem X6_bind_groups_conform
    (cellShaderCode computeShaderCode : string) (GRID_SIZE : Z)
    (random : nat -> Q) (w : Browser) (p : Main.Program) :
  Main.main cellShaderCode computeShaderCode GRID_SIZE random w = Ok p ->
  (le_binding <$> layoutEntries (Main.bindGroupLayout (Main.globals p)))
  = [0; 1; 2]
  /\ (le_buffer <$> layoutEntries (Main.bindGroupLayout (Main.globals p)))
     = [uniform; read_only_storage; storage]
  /\ Forall (fun bg => conforms (layoutEntries (bg_layout bg)) (bg_entries bg)
                       = true)
       (Main.bindGroups (Main.globals p)).
Proof.
  intros Hmain. apply main_inv in Hmain as (h & _ & ->).
  destruct (start_bindGroups cellShaderCode computeShaderCode GRID_SIZE random h)
    as (hA & hB & -> & _).
  split; [reflexivity|]. split; [reflexivity|].
  repeat constructor.
Qed.

(** X7 -- every [setBindGroup] matches the pipeline of its pass.  In the
    full variant both pipelines have the one pipeline layout, and each call
    sets, at index 0, a bind group whose layout is that pipeline layout's
    entry 0, in the compute and in the render pass.  In the render-only
    variant the bind group set at index 0 has the layout the pass's
    pipeline gives for index 0. *)
Theorem X7_bind_groups_match_pipelines
    (cellShaderCode computeShaderCode : string)
    (GRID_SIZE WORKGROUP_SIZE GRID_SIZE' : Z) (random : nat -> Q)
    (w : Browser) (p : Main.Program) (q : RenderOnly.Program) (k : nat) :
  Main.main cellShaderCode computeShaderCode GRID_SIZE random w = Ok p ->
  RenderOnly.main cellShaderCode GRID_SIZE' w = Ok q ->
  (exists cp rp bgc bgr,
     let cb := Main.frame GRID_SIZE WORKGROUP_SIZE p k in
     computePipelines cb = [cp]
     /\ computeBindings cb = [(0, Some bgc)]
     /\ layoutAt (cp_layout cp) 0 = Some (bg_layout bgc)
     /\ renderPipelines cb = [rp]
     /\ renderBindings cb = [(0, Some bgr)]
     /\ layoutAt (rp_layout rp) 0 = Some (bg_layout bgr)
     /\ cp_layout cp = rp_layout rp)
  /\ exists cb rp bg,
       submitted (RenderOnly.device q) = [cb]
       /\ renderPipelines cb = [rp]
       /\ renderBindings cb = [(0, Some bg)]
       /\ bg_layout bg = getBindGroupLayout rp 0.
Proof.
  intros Hmain Hrender.
  apply main_inv in Hmain as (h & Hboot & ->).
  apply renderOnly_inv in Hrender as (h' & Hboot' & ->).
  rewrite Hboot in Hboot'. inversion Hboot'. subst h'.
  destruct (bootstrap_fresh w h Hboot) as [Hnh Hq].
  split.
  - destruct (frame_bindGroups cellShaderCode computeShaderCode GRID_SIZE
                WORKGROUP_SIZE random h k) as (A & B & HAB & Hc & Hr & _).
    destruct (start_bindGroups cellShaderCode computeShaderCode GRID_SIZE
                random h) as (hA & hB & HAB' & _).
    rewrite HAB in HAB'. inversion HAB'. subst A B.
    destruct (start_pipelines cellShaderCode computeShaderCode GRID_SIZE
                random h) as (hl & hp & Hbgl & Hpl & Hrl & Hcl & _).
    cbv zeta. do 4 eexists.
    split; [rewrite frame_issued, issued_updateGrid, frames_globals;
            reflexivity|].
    split; [exact Hc|].
    split.
    { rewrite Hcl, Hpl. destruct (Nat.even k); reflexivity. }
    split; [rewrite frame_issued, issued_updateGrid, frames_globals;
            reflexivity|].
    split; [exact Hr|].
    split.
    { rewrite Hrl, Hpl. destruct (Nat.even k); reflexivity. }
    now rewrite Hcl, Hrl.
  - destruct (start_renderOnly cellShaderCode GRID_SIZE' h Hnh Hq)
      as (vb & ub & sm & rp & bg & -> & -> & -> & -> & -> & ->).
    do 3 eexists. repeat split; reflexivity.
Qed.

(** X8 -- the render target and the render pipeline agree on the texture
    format: the canvas context is configured with the browser's preferred
    format, the pipeline's one fragment target has that same format, and
    every render pass, in either variant, draws to that context. *)
Theorem X8_canvas_format_agrees
    (cellShaderCode computeShaderCode : string)
    (GRID_SIZE WORKGROUP_SIZE GRID_SIZE' : Z) (random : nat -> Q)
    (w : Browser) (p : Main.Program) (q : RenderOnly.Program) (k : nat) :
  Main.main cellShaderCode computeShaderCode GRID_SIZE random w = Ok p ->
  RenderOnly.main cellShaderCode GRID_SIZE' w = Ok q ->
  exists gpu ctx cb,
    navigator_gpu w = Some gpu
    /\ ctx_format ctx = Some (getPreferredCanvasFormat gpu)
    /\ Main.context (Main.globals p) = ctx
    /\ colorTargets (Main.frame GRID_SIZE WORKGROUP_SIZE p k) = [ctx]
    /\ rp_fragment_targets (Main.cellPipeline (Main.globals p))
       = [getPreferredCanvasFormat gpu]
    /\ submitted (RenderOnly.device q) = [cb]
    /\ colorTargets cb = [ctx]
    /\ rp_fragment_targets (RenderOnly.cellPipeline q)
       = [getPreferredCanvasFormat gpu].
Proof.
  intros Hmain Hrender.
  apply main_inv in Hmain as (h & Hboot & ->).
  apply renderOnly_inv in Hrender as (h' & Hboot' & ->).
  rewrite Hboot in Hboot'. inversion Hboot'. subst h'.
  destruct (bootstrap_fresh w h Hboot) as [Hnh Hq].
  destruct (start_renderOnly cellShaderCode GRID_SIZE' h Hnh Hq)
    as (vb & ub & sm & rp & bg & -> & -> & -> & -> & -> & ->).
  apply bootstrap_inv in Hboot
    as (gpu & ad & cv & c & Hgpu & _ & _ & _ & _ & ->).
  exists gpu. do 2 eexists.
  split; [exact Hgpu|].
  split; [|split; [reflexivity|]].
  2:{ split; [rewrite frame_issued, issued_updateGrid, frames_globals;
              reflexivity|].
      split; [reflexivity|]. split; [reflexivity|].
      split; reflexivity. }
  reflexivity.
Qed.

Lemma frames_dispatch_count (GRID_SIZE WORKGROUP_SIZE : Z) n p :
  let d := Main.device (Main.frames GRID_SIZE WORKGROUP_SIZE n p) in
  List.length (flat_map dispatches (submitted d))
  = (List.length (flat_map dispatches (submitted (Main.device p))) + n)%nat
  /\ List.length (flat_map draws (submitted d))
     = (List.length (flat_map draws (submitted (Main.device p))) + n)%nat.
Proof.
  cbv zeta. induction n as [|n [IHd IHr]]; simpl Main.frames.
  - split; lia.
  - rewrite updateGrid_submitted, !flat_map_app, !length_app, IHd, IHr.
    rewrite issued_updateGrid. simpl. split; lia.
Qed.

(** X9 -- [step] tracks how many simulation steps have been run: after any
    number of timer calls it equals the number of compute dispatches in all
    command buffers submitted so far, and also the number of draws and the
    number of command buffers. *)
Theorem X9_step_counts_dispatches
    (cellShaderCode computeShaderCode : string) (GRID_SIZE WORKGROUP_SIZE : Z)
    (random : nat -> Q) (w : Browser) (p : Main.Program) (n : nat) :
  Main.main cellShaderCode computeShaderCode GRID_SIZE random w = Ok p ->
  let pn := Main.frames GRID_SIZE WORKGROUP_SIZE n p in
  Z.of_nat (List.length (flat_map dispatches (submitted (Main.device pn))))
  = Main.step pn
  /\ Z.of_nat (List.length (flat_map draws (submitted (Main.device pn))))
     = Main.step pn
  /\ Z.of_nat (List.length (submitted (Main.device pn))) = Main.step pn.
Proof.
  intros Hmain. cbv zeta. apply main_inv in Hmain as (h & Hboot & ->).
  destruct (bootstrap_fresh w h Hboot) as [_ Hq].
  destruct (frames_dispatch_count GRID_SIZE WORKGROUP_SIZE n
              (Main.start cellShaderCode computeShaderCode GRID_SIZE random h))
    as [Hd Hr].
  rewrite Hd, Hr, frames_submitted_length, frames_step, start_step.
  rewrite (start_submitted _ _ _ _ h Hq). simpl. repeat split; lia.
Qed.

(** X10 -- one grid throughout: for a grid side [GRID_SIZE >= 0] and a
    positive tile size, the seeded array has one cell per drawn instance,
    each cell-state buffer has four bytes per instance, the uploaded grid
    uniform is [(GRID_SIZE, GRID_SIZE)] with that product, and the
    [w * w] workgroups of [WORKGROUP_SIZE * WORKGROUP_SIZE] invocations
    cover every cell. *)
Theorem X10_one_grid_size
    (cellShaderCode computeShaderCode : string) (GRID_SIZE WORKGROUP_SIZE : Z)
    (random : nat -> Q) (w : Browser) (p : Main.Program) (k : nat) :
  Main.main cellShaderCode computeShaderCode GRID_SIZE random w = Ok p ->
  0 <= GRID_SIZE -> 0 < WORKGROUP_SIZE ->
  exists cells vertexCount instances count,
    Main.cellStateArray GRID_SIZE random = Uint32Array cells
    /\ draws (Main.frame GRID_SIZE WORKGROUP_SIZE p k)
       = [(vertexCount, instances)]
    /\ dispatches (Main.frame GRID_SIZE WORKGROUP_SIZE p k) = [(count, count)]
    /\ Z.of_nat (List.length cells) = instances
    /\ Forall (fun s => buf_size s = 4 * instances)
         (Main.cellStateStorage (Main.globals p))
    /\ uploadsTo (Main.uniformBuffer (Main.globals p)) (Main.device p)
       = [Float32Array [inject_Z GRID_SIZE; inject_Z GRID_SIZE]]
    /\ GRID_SIZE * GRID_SIZE = instances
    /\ instances
       <= (count * WORKGROUP_SIZE) * (count * WORKGROUP_SIZE).
Proof.
  intros Hmain HN HT. apply main_inv in Hmain as (h & Hboot & ->).
  destruct (bootstrap_fresh w h Hboot) as [_ Hq].
  destruct (cellStateArray_elems GRID_SIZE random) as (cells & Hc & Hlen & _).
  destruct (start_uploadsTo cellShaderCode computeShaderCode GRID_SIZE random
              h Hq) as (_ & _ & _ & HU).
  exists cells. do 3 eexists.
  split; [exact Hc|].
  rewrite frame_issued, issued_updateGrid.
  split; [reflexivity|]. split; [reflexivity|].
  split; [rewrite Hlen; apply Z2Nat.id; nia|].
  split.
  { rewrite start_cellStateStorage.
    repeat constructor; apply cellStateArray_byteLength. }
  split; [rewrite start_uniformBuffer; exact HU|].
  split; [reflexivity|].
  rewrite Math_ceil_div by exact HT.
  pose proof (ceil_covers GRID_SIZE WORKGROUP_SIZE HT) as [_ Hcover].
  nia.
Qed.

Lemma seedCell_comp (x y : Q) : (x == y)%Q -> Main.seedCell x = Main.seedCell y.
Proof.
  intros Hxy. unfold Main.seedCell, gt.
  destruct (Qle_bool x 0.6) eqn:Hx, (Qle_bool y 0.6) eqn:Hy; try reflexivity.
  - apply Qle_bool_iff in Hx. rewrite Hxy in Hx. apply Qle_bool_iff in Hx.
    congruence.
  - apply Qle_bool_iff in Hy. rewrite <- Hxy in Hy. apply Qle_bool_iff in Hy.
    congruence.
Qed.

Lemma cellStateArray_seedsOf (GRID_SIZE : Z) (random : nat -> Q) :
  Main.cellStateArray GRID_SIZE random
  = Uint32Array (seedsOf random (Z.to_nat (GRID_SIZE * GRID_SIZE))).
Proof.
  destruct (cellStateArray_elems GRID_SIZE random)
    as (cells & -> & Hlen & Hlook & _).
  f_equal. apply list_eq. intros j. unfold seedsOf.
  destruct (Nat.lt_ge_cases j (Z.to_nat (GRID_SIZE * GRID_SIZE))) as [Hj|Hj].
  - rewrite (Hlook j Hj), list_lookup_fmap, lookup_seq_lt by exact Hj.
    reflexivity.
  - rewrite !lookup_ge_None_2; [reflexivity | |].
    + rewrite length_fmap, length_seq. exact Hj.
    + rewrite Hlen. exact Hj.
Qed.

(** X11 -- the seeding loop makes exactly [GRID_SIZE * GRID_SIZE] random
    draws, one per cell in index order: the seeded array is the list of the
    seeds of draws [0 .. GRID_SIZE * GRID_SIZE - 1], so two random sources
    that agree on those draws seed the same grid, and a grid of side 0 is
    seeded with the empty array. *)
Theorem X11_seeding_uses_first_draws
    (GRID_SIZE : Z) (random random' : nat -> Q) :
  Main.cellStateArray GRID_SIZE random
  = Uint32Array (seedsOf random (Z.to_nat (GRID_SIZE * GRID_SIZE)))
  /\ ((forall j, (j < Z.to_nat (GRID_SIZE * GRID_SIZE))%nat ->
                 (random j == random' j)%Q) ->
      Main.cellStateArray GRID_SIZE random
      = Main.cellStateArray GRID_SIZE random')
  /\ (GRID_SIZE = 0 -> Main.cellStateArray GRID_SIZE random = Uint32Array []).
Proof.
  split; [apply cellStateArray_seedsOf|]. split.
  - intros Hagree. rewrite !cellStateArray_seedsOf. f_equal.
    unfold seedsOf. apply list_eq. intros j. rewrite !list_lookup_fmap.
    destruct (Nat.lt_ge_cases j (Z.to_nat (GRID_SIZE * GRID_SIZE))) as [Hj|Hj].
    + rewrite lookup_seq_lt by exact Hj. simpl. f_equal.
      apply seedCell_comp, Hagree, Hj.
    + rewrite lookup_ge_None_2 by (rewrite length_seq; exact Hj). reflexivity.
  - intros ->. reflexivity.
Qed.

(** * The further properties on concrete runs *)

Lemma X1_uploads_fill_buffers_witness :
  Main.main "cell" "compute" 4 Sample.random Sample.browser = Ok Sample.program
  /\ forallb uploadFills
       (uploads (Main.device (Main.frames 4 3 2 Sample.program))) = true
  /\ buf_size (Main.vertexBuffer (Main.globals Sample.program)) = 48.
Proof.
  split; [reflexivity|].
  destruct (X1_uploads_fill_buffers "cell" "compute" 4 3 Sample.random
              Sample.browser Sample.program 2 eq_refl)
    as (s0 & s1 & _ & Hv & _ & _ & _ & Hfill & _).
  split; [exact Hfill | exact Hv].
Defined.

Lemma X2_renderOnly_uploads_witness :
  RenderOnly.main "cell" Reference.RENDER_ONLY_GRID_SIZE Sample.browser
  = Ok Sample.renderOnly
  /\ forallb uploadFills (uploads (RenderOnly.device Sample.renderOnly)) = true.
Proof.
  split; [reflexivity|].
  destruct (X2_renderOnly_uploads "cell" Reference.RENDER_ONLY_GRID_SIZE
              Sample.browser Sample.renderOnly eq_refl) as (_ & Hfill & _).
  exact Hfill.
Defined.

Lemma X3_draw_within_vertex_buffer_witness :
  Main.main "cell" "compute" Reference.GRID_SIZE Sample.random Sample.browser
  = Ok Sample.reference
  /\ RenderOnly.main "cell" Reference.RENDER_ONLY_GRID_SIZE Sample.browser
     = Ok Sample.renderOnly
  /\ exists vb, vertexBuffers (Main.frame 128 8 Sample.reference 1) = [(0, vb)]
                /\ hasUsage VERTEX vb = true.
Proof.
  split; [reflexivity|]. split; [reflexivity|].
  destruct (X3_draw_within_vertex_buffer "cell" "compute" 128 8 32
              Sample.random Sample.browser Sample.reference Sample.renderOnly
              1 eq_refl eq_refl)
    as ((vb & rp & layout & v & i & Hvb & _ & _ & _ & Hu & _) & _).
  exists vb. split; [exact Hvb | exact Hu].
Defined.

Lemma X4_render_reads_compute_output_witness :
  Main.main "cell" "compute" 4 Sample.random Sample.browser = Ok Sample.program
  /\ exists buf,
       renderInput (Main.frame 4 3 Sample.program 2) = Some buf
       /\ computeOutput (Main.frame 4 3 Sample.program 2) = Some buf.
Proof.
  split; [reflexivity|].
  destruct (X4_render_reads_compute_output "cell" "compute" 4 3 Sample.random
              Sample.browser Sample.program 2 eq_refl) as (Hsame & _).
  exact Hsame.
Defined.

Lemma X5_first_dispatch_reads_seed_witness :
  Main.main "cell" "compute" 4 Sample.random Sample.browser = Ok Sample.program
  /\ exists seeded,
       computeInput (Main.frame 4 3 Sample.program 0) = Some seeded
       /\ uploadsTo seeded (Main.device Sample.program)
          = [Main.cellStateArray 4 Sample.random].
Proof.
  split; [reflexivity|].
  destruct (X5_first_dispatch_reads_seed "cell" "compute" 4 3 Sample.random
              Sample.browser Sample.program eq_refl)
    as (seeded & blank & Hin & _ & _ & Hup & _).
  exists seeded. split; [exact Hin | exact Hup].
Defined.

Lemma X6_bind_groups_conform_witness :
  Main.main "cell" "compute" 4 Sample.random Sample.browser = Ok Sample.program
  /\ Forall (fun bg => conforms (layoutEntries (bg_layout bg)) (bg_entries bg)
                       = true)
       (Main.bindGroups (Main.globals Sample.program)).
Proof.
  split; [reflexivity|].
  destruct (X6_bind_groups_conform "cell" "compute" 4 Sample.random
              Sample.browser Sample.program eq_refl) as (_ & _ & Hall).
  exact Hall.
Defined.

Lemma X7_bind_groups_match_pipelines_witness :
  Main.main "cell" "compute" Reference.GRID_SIZE Sample.random Sample.browser
  = Ok Sample.reference
  /\ RenderOnly.main "cell" Reference.RENDER_ONLY_GRID_SIZE Sample.browser
     = Ok Sample.renderOnly
  /\ exists cb rp bg,
       submitted (RenderOnly.device Sample.renderOnly) = [cb]
       /\ renderPipelines cb = [rp]
       /\ renderBindings cb = [(0, Some bg)]
       /\ bg_layout bg = getBindGroupLayout rp 0.
Proof.
  split; [reflexivity|]. split; [reflexivity|].
  destruct (X7_bind_groups_match_pipelines "cell" "compute" 128 8 32
              Sample.random Sample.browser Sample.reference Sample.renderOnly
              0 eq_refl eq_refl) as (_ & Hrender).
  exact Hrender.
Defined.

Lemma X8_canvas_format_agrees_witness :
  Main.main "cell" "compute" Reference.GRID_SIZE Sample.random Sample.browser
  = Ok Sample.reference
  /\ RenderOnly.main "cell" Reference.RENDER_ONLY_GRID_SIZE Sample.browser
     = Ok Sample.renderOnly
  /\ exists gpu,
       navigator_gpu Sample.browser = Some gpu
       /\ rp_fragment_targets (Main.cellPipeline (Main.globals Sample.reference))
          = [getPreferredCanvasFormat gpu].
Proof.
  split; [reflexivity|]. split; [reflexivity|].
  destruct (X8_canvas_format_agrees "cell" "compute" 128 8 32
              Sample.random Sample.browser Sample.reference Sample.renderOnly
              0 eq_refl eq_refl)
    as (gpu & ctx & cb & Hgpu & _ & _ & _ & Hfmt & _).
  exists gpu. split; [exact Hgpu | exact Hfmt].
Defined.

Lemma X9_step_counts_dispatches_witness :
  Main.main "cell" "compute" 4 Sample.random Sample.browser = Ok Sample.program
  /\ Z.of_nat (List.length
                 (flat_map dispatches
                    (submitted (Main.device (Main.frames 4 3 7 Sample.program)))))
     = Main.step (Main.frames 4 3 7 Sample.program).
Proof.
  split; [reflexivity|].
  destruct (X9_step_counts_dispatches "cell" "compute" 4 3 Sample.random
              Sample.browser Sample.program 7 eq_refl) as (Hd & _).
  exact Hd.
Defined.

Lemma X10_one_grid_size_witness :
  Main.main "cell" "compute" 4 Sample.random Sample.browser = Ok Sample.program
  /\ 0 <= 4 /\ 0 < 3
  /\ exists instances count,
       dispatches (Main.frame 4 3 Sample.program 0) = [(count, count)]
       /\ 4 * 4 = instances
       /\ instances <= (count * 3) * (count * 3).
Proof.
  assert (H0 : 0 <= 4) by lia.
  assert (H1 : 0 < 3) by lia.
  split; [reflexivity|]. split; [exact H0|]. split; [exact H1|].
  destruct (X10_one_grid_size "cell" "compute" 4 3 Sample.random
              Sample.browser Sample.program 0 eq_refl H0 H1)
    as (cells & v & instances & count & _ & _ & Hd & _ & _ & _ & Hi & Hc).
  exists instances, count. split; [exact Hd|]. split; [exact Hi | exact Hc].
Defined.

Lemma X11_seeding_uses_first_draws_witness :
  (forall j, (j < Z.to_nat (2 * 2))%nat ->
             (Sample.random j
              == (fun i => if Nat.ltb i 4 then Sample.random i else 0.9) j)%Q)
  /\ Main.cellStateArray 2 Sample.random
     = Main.cellStateArray 2
         (fun i => if Nat.ltb i 4 then Sample.random i else 0.9%Q)
  /\ Main.cellStateArray 0 Sample.random = Uint32Array [].
Proof.
  assert (Hagree : forall j, (j < Z.to_nat (2 * 2))%nat ->
    (Sample.random j
     == (fun i => if Nat.ltb i 4 then Sample.random i else 0.9) j)%Q).
  { intros j Hj. simpl in Hj. cbv beta.
    destruct (Nat.ltb_spec j 4); [reflexivity | lia]. }
  destruct (X11_seeding_uses_first_draws 2 Sample.random
              (fun i => if Nat.ltb i 4 then Sample.random i else 0.9%Q))
    as (_ & Hsame & _).
  destruct (X11_seeding_uses_first_draws 0 Sample.random Sample.random)
    as (_ & _ & Hempty).
  split; [exact Hagree|]. split; [exact (Hsame Hagree) | exact (Hempty eq_refl)].
Defined.
